(** * curlpip: a shallow embedding of [scripts/curlpip.py]

    The resolver of [ModuleInstaller]: metadata fetching with redirect
    handling and the in-memory cache ([get_project_json]), version matching
    ([compare_version], [is_match_version]), archive selection
    ([find_module_file], [get_module_url]), dependency extraction
    ([get_whl_dependencies], [get_source_dependencies]) and the depth-tagged
    recursive walk ([get_module_recursive], [clean_duplicated_files]).

    Conventions of the embedding.
    - A Python [str] of ASCII text is the [string] of its characters. The
      character classes of the regular expressions ([\w], [\d]) and the
      white space of [strip] and [split] are given on ASCII; the source's
      are Unicode-aware, so on a text with other characters a pattern of
      the source may match where its model does not. [Str.ascii_text] and
      [Str.is_ascii] mark the statements that are made for ASCII text
      only.
    - Python values decoded from JSON are [pyobj]; [None] is [PNone].
    - A computation that may raise, call [sys.exit] or (for the recursive
      walk) exhaust its fuel returns an [outcome]; code that reads or writes
      the instance attributes or talks to the outside world runs in the
      state monad [M] over [State].
    - The outside world (the package index behind [curl], [json.loads],
      pip's [Wheel.supported], the contents of archives) is an [Env].
    - Console output ([print]) is not modelled. *)

From Stdlib Require Import ZArith Ascii String List Bool Lia Sorted Permutation.
From stdpp Require Import base option list sorting gmap strings.

Import ListNotations.
Local Open Scope Z_scope.
Local Open Scope string_scope.
Local Open Scope list_scope.

(* ===================================================================== *)
(** ** Characters and strings *)
(* ===================================================================== *)

Module Str.

Definition code (c : ascii) : N := N_of_ascii c.

Definition between (lo hi : N) (c : ascii) : bool :=
  ((lo <=? code c) && (code c <=? hi))%N.

(** [\d] *)
Definition is_digit (c : ascii) : bool := between 48 57 c.
(** [[a-z]] *)
Definition is_lower (c : ascii) : bool := between 97 122 c.
Definition is_upper (c : ascii) : bool := between 65 90 c.
(** [\w], on ASCII *)
Definition is_word (c : ascii) : bool :=
  is_digit c || is_lower c || is_upper c || Ascii.eqb c "_".
(** the ASCII characters [str.strip()] removes and [str.split()] cuts
    at: TAB, LF, VT, FF, CR, FS, GS, RS, US and SPACE *)
Definition is_space (c : ascii) : bool :=
  between 9 13 c || between 28 31 c || Ascii.eqb c " ".

(** a character of ASCII *)
Definition is_ascii (c : ascii) : bool := (code c <? 128)%N.

(** [c in chars] for a one-character [c] *)
Fixpoint mem (c : ascii) (chars : string) : bool :=
  match chars with
  | EmptyString => false
  | String d r => Ascii.eqb c d || mem c r
  end.

Fixpoint all (p : ascii -> bool) (s : string) : bool :=
  match s with
  | EmptyString => true
  | String c r => p c && all p r
  end.

(** the longest prefix of [s] made of characters of [p], and the rest:
    what a greedy [[...]*] consumes when the next pattern item cannot
    start with a character of the class *)
Fixpoint span (p : ascii -> bool) (s : string) : string * string :=
  match s with
  | EmptyString => (EmptyString, EmptyString)
  | String c r =>
      if p c then let '(a, b) := span p r in (String c a, b)
      else (EmptyString, s)
  end.

Definition is_empty (s : string) : bool :=
  match s with EmptyString => true | _ => false end.

(** [s.isascii()] *)
Definition ascii_text (s : string) : bool := all is_ascii s.

(** no character of [s] is white space *)
Definition no_space (s : string) : bool := all (fun c => negb (is_space c)) s.

(** [s.startswith(pre)] *)
Definition startswith (pre s : string) : bool := String.prefix pre s.

(** [s] without its prefix [pre], when it has it *)
Fixpoint strip_prefix (pre s : string) : option string :=
  match pre, s with
  | EmptyString, _ => Some s
  | String a p, String b r => if Ascii.eqb a b then strip_prefix p r else None
  | String _ _, EmptyString => None
  end.

Fixpoint drop (n : nat) (s : string) : string :=
  match n, s with
  | O, _ => s
  | S k, String _ r => drop k r
  | S _, EmptyString => EmptyString
  end.

Fixpoint lstrip (s : string) : string :=
  match s with
  | String c r => if is_space c then lstrip r else s
  | EmptyString => EmptyString
  end.

Fixpoint rstrip (s : string) : string :=
  match s with
  | EmptyString => EmptyString
  | String c r =>
      let r' := rstrip r in
      if is_space c && is_empty r' then EmptyString else String c r'
  end.

(** [s.strip()] *)
Definition strip (s : string) : string := lstrip (rstrip s).

(** [s.replace(old, '')] for a non-empty [old]: every occurrence of [old],
    scanning from the left, is removed; [skip] counts the characters of
    the occurrence being removed that are still to be passed over *)
Fixpoint remove_from (old : string) (skip : nat) (s : string) : string :=
  match s with
  | EmptyString => EmptyString
  | String c r =>
      match skip with
      | S k => remove_from old k r
      | O =>
          if String.prefix old s
          then remove_from old (Nat.pred (String.length old)) r
          else String c (remove_from old O r)
      end
  end.

Definition remove_all (old s : string) : string := remove_from old O s.

(** [s.split(sep)] for a one-character separator *)
Fixpoint split (sep : ascii) (s : string) : list string :=
  match s with
  | EmptyString => [EmptyString]
  | String c r =>
      if Ascii.eqb c sep then EmptyString :: split sep r
      else match split sep r with
           | h :: t => String c h :: t
           | [] => [String c EmptyString]
           end
  end.

(** [os.path.basename] *)
Definition basename (path : string) : string :=
  List.last (split "/" path) EmptyString.

(** the suffix of [s] from its last dot on, [None] without a dot *)
Fixpoint last_dot (s : string) : option string :=
  match s with
  | EmptyString => None
  | String c r =>
      match last_dot r with
      | Some e => Some e
      | None => if Ascii.eqb c "." then Some s else None
      end
  end.

(** the extension [os.path.splitext(path)[1]]: from the last dot of the
    last path component, unless only dots come before it there *)
Definition splitext_ext (path : string) : string :=
  let base := basename path in
  match last_dot base with
  | None => EmptyString
  | Some e =>
      let stem_len := (String.length base - String.length e)%nat in
      if all (Ascii.eqb ".") (String.substring 0 stem_len base)
      then EmptyString else e
  end.

(** [int(s)] for a run of decimal digits *)
Definition digit_val (c : ascii) : Z := Z.of_N (code c) - 48.

Fixpoint int_acc (acc : Z) (s : string) : Z :=
  match s with
  | EmptyString => acc
  | String c r => int_acc (10 * acc + digit_val c) r
  end.

Definition int_of_digits (s : string) : Z := int_acc 0 s.

End Str.

(* ===================================================================== *)
(** ** Outcomes of Python computations *)
(* ===================================================================== *)

Inductive exn : Type :=
| KeyError | TypeError | AttributeError | IndexError | IOError
| UnicodeDecodeError.

(** [Exit n] is [sys.exit(n)]: nothing on the modelled paths catches it.
    [Timeout] is the embedding running out of fuel in the recursive walk;
    no other function produces it. *)
Inductive outcome (A : Type) : Type :=
| Ok (a : A)
| Raise (e : exn)
| Exit (status : Z)
| Timeout.

Arguments Ok {A} a.
Arguments Raise {A} e.
Arguments Exit {A} status.
Arguments Timeout {A}.

Definition obind {A B} (x : outcome A) (k : A -> outcome B) : outcome B :=
  match x with
  | Ok a => k a
  | Raise e => Raise e
  | Exit n => Exit n
  | Timeout => Timeout
  end.

Notation "x <-? e ;; k" := (obind e (fun x => k))
  (at level 100, e at next level, right associativity).

(** a list comprehension [[f(x) for x in l]] whose body may raise *)
Fixpoint comprehension {A B} (f : A -> outcome B) (l : list A) : outcome (list B) :=
  match l with
  | [] => Ok []
  | x :: r => y <-? f x ;; ys <-? comprehension f r ;; Ok (y :: ys)
  end.

(** the builtin [all] on a list of booleans *)
Definition all (l : list bool) : bool := forallb (fun b => b) l.

(* ===================================================================== *)
(** ** distutils' LooseVersion *)
(* ===================================================================== *)

(** a component of a parsed version: [int] or [str] *)
Inductive component : Type :=
| CInt (n : Z)
| CStr (s : string).

(** A [LooseVersion] object. [LooseVersion('')] skips [parse] and has
    neither attribute: [LV_unset]. *)
Inductive LooseVersion : Type :=
| LV (vstring : string) (version : list component)
| LV_unset.

Module Loose.

(** The pieces [component_re.split(vstring)] returns that survive the
    filter [x and x != '.']: maximal digit runs, maximal runs of [[a-z]],
    and the text between matches; the dots are dropped. [flush] emits the
    run read so far, unless it is empty. *)
Definition flush (other : string) (k : list string) : list string :=
  if Str.is_empty other then k else other :: k.

Definition kind (c : ascii) : nat :=
  if Str.is_digit c then 1%nat
  else if Str.is_lower c then 2%nat
  else if Ascii.eqb c "." then 3%nat
  else 0%nat.

(** [cur] is the run being read, [k] its kind (0: text between matches,
    1: digits, 2: lower-case letters) *)
Fixpoint pieces (k : nat) (cur : string) (s : string) : list string :=
  match s with
  | EmptyString => flush cur []
  | String c r =>
      let kc := kind c in
      if Nat.eqb kc 3 then flush cur (pieces 0 EmptyString r)
      else if Nat.eqb kc k then pieces k (cur ++ String c EmptyString)%string r
      else flush cur (pieces kc (String c EmptyString) r)
  end.

(** [try: components[i] = int(obj) except ValueError: pass] *)
Definition to_component (x : string) : component :=
  if Str.all Str.is_digit x then CInt (Str.int_of_digits x) else CStr x.

Definition parse (vstring : string) : list component :=
  map to_component (pieces 0 EmptyString vstring).

(** [LooseVersion(vstring)] *)
Definition init (vstring : string) : LooseVersion :=
  if Str.is_empty vstring then LV_unset else LV vstring (parse vstring).

(** [self.version] *)
Definition version_of (v : LooseVersion) : outcome (list component) :=
  match v with
  | LV _ cs => Ok cs
  | LV_unset => Raise AttributeError
  end.

(** [==] on components: an [int] never equals a [str] *)
Definition comp_eqb (a b : component) : bool :=
  match a, b with
  | CInt x, CInt y => Z.eqb x y
  | CStr s, CStr t => String.eqb s t
  | _, _ => false
  end.

(** [<] on components: ordering an [int] against a [str] raises *)
Definition comp_ltb (a b : component) : outcome bool :=
  match a, b with
  | CInt x, CInt y => Ok (Z.ltb x y)
  | CStr s, CStr t => Ok (String.ltb s t)
  | _, _ => Raise TypeError
  end.

Fixpoint list_eqb (a b : list component) : bool :=
  match a, b with
  | [], [] => true
  | x :: a', y :: b' => comp_eqb x y && list_eqb a' b'
  | _, _ => false
  end.

(** [a < b] on lists: the first pair of unequal items decides, else the
    lengths *)
Fixpoint list_ltb (a b : list component) : outcome bool :=
  match a, b with
  | [], [] => Ok false
  | [], _ :: _ => Ok true
  | _ :: _, [] => Ok false
  | x :: a', y :: b' => if comp_eqb x y then list_ltb a' b' else comp_ltb x y
  end.

(** [a > b] on lists *)
Fixpoint list_gtb (a b : list component) : outcome bool :=
  match a, b with
  | [], [] => Ok false
  | [], _ :: _ => Ok false
  | _ :: _, [] => Ok true
  | x :: a', y :: b' => if comp_eqb x y then list_gtb a' b' else comp_ltb y x
  end.

(** [Version._cmp]: 0, -1 or 1; [None] when it falls off its end *)
Definition _cmp (self other : LooseVersion) : outcome (option Z) :=
  sv <-? version_of self ;;
  ov <-? version_of other ;;
  if list_eqb sv ov then Ok (Some 0)
  else
    lt <-? list_ltb sv ov ;;
    if lt : bool then Ok (Some (-1))
    else
      gt <-? list_gtb sv ov ;;
      if gt : bool then Ok (Some 1) else Ok None.

(** [c == 0] *)
Definition eq (self other : LooseVersion) : outcome bool :=
  c <-? _cmp self other ;;
  Ok (match c with Some z => Z.eqb z 0 | None => false end).

(** [!=]: the inverse of [__eq__] *)
Definition ne (self other : LooseVersion) : outcome bool :=
  b <-? eq self other ;; Ok (negb b).

(** [c <op> 0] with an ordering operator; [None <op> 0] raises *)
Definition ordered (op : Z -> Z -> bool) (self other : LooseVersion) : outcome bool :=
  c <-? _cmp self other ;;
  match c with
  | Some z => Ok (op z 0)
  | None => Raise TypeError
  end.

Definition ge := ordered Z.geb.
Definition gt := ordered Z.gtb.
Definition le := ordered Z.leb.
Definition lt := ordered Z.ltb.

End Loose.

(* ===================================================================== *)
(** ** The request records *)
(* ===================================================================== *)

(** [VersionRequirement]: [version] defaults to [None], [operator] to
    ['==']. *)
Record VersionRequirement : Type := mkVersionRequirement {
  version : option LooseVersion;
  operator : string
}.

(** [VersionRequirement(v)] *)
Definition VersionRequirement1 (v : LooseVersion) : VersionRequirement :=
  mkVersionRequirement (Some v) "==".

(** [VersionRequirement(v, op)] *)
Definition VersionRequirement2 (v : LooseVersion) (op : string) : VersionRequirement :=
  mkVersionRequirement (Some v) op.

(** [InstallModule]: [version_requirements] defaults to [[]]. *)
Record InstallModule : Type := mkInstallModule {
  name : string;
  version_requirements : list VersionRequirement
}.

(** [InstallModule(name)] *)
Definition InstallModule1 (n : string) : InstallModule := mkInstallModule n [].

(* ===================================================================== *)
(** ** Version matching *)
(* ===================================================================== *)

(** [compare_version], on [LooseVersion] operands as [is_match_version]
    calls it *)
Definition compare_version (target_version : LooseVersion)
    (require_version : option LooseVersion) (operator : string) : outcome bool :=
  match require_version with
  | None => Ok true
  | Some require_version =>
      if Str.is_empty operator || String.eqb operator "==" then
        Loose.eq target_version require_version
      else if String.eqb operator "!=" then
        Loose.ne target_version require_version
      else if String.eqb operator ">=" then
        Loose.ge target_version require_version
      else if String.eqb operator ">" then
        Loose.gt target_version require_version
      else if String.eqb operator "<=" then
        Loose.le target_version require_version
      else if String.eqb operator "<" then
        Loose.lt target_version require_version
      else Ok false
  end.

(** [is_match_version]: the list comprehension evaluates every comparison
    before [all] looks at the results *)
Definition is_match_version (target_version : LooseVersion)
    (version_requirements : list VersionRequirement) : outcome bool :=
  match version_requirements with
  | [] => Ok true
  | _ =>
      results <-? comprehension
        (fun req => compare_version target_version (version req) (operator req))
        version_requirements ;;
      Ok (all results)
  end.

(** The spec's reading of [matches], to compare with [is_match_version]:
    the logical AND of each requirement's operator evaluation, every one of
    them evaluated. *)
Fixpoint matches_spec (candidate : LooseVersion)
    (constraints : list VersionRequirement) : outcome bool :=
  match constraints with
  | [] => Ok true
  | c :: rest =>
      b <-? compare_version candidate (version c) (operator c) ;;
      bs <-? matches_spec candidate rest ;;
      Ok (b && bs)
  end.

(* ===================================================================== *)
(** ** Python values decoded from JSON *)
(* ===================================================================== *)

(** What [json.loads] returns (numbers: the integers): [None], [bool],
    [int], [str], [list], and [dict] with its items in insertion order. *)
#[warnings="-register-all"]
Inductive pyobj : Type :=
| PNone
| PBool (b : bool)
| PInt (z : Z)
| PStr (s : string)
| PList (l : list pyobj)
| PDict (d : list (string * pyobj)).

Module Py.

(** truth value, as [if obj:] and [not obj] test it *)
Definition truthy (o : pyobj) : bool :=
  match o with
  | PNone => false
  | PBool b => b
  | PInt z => negb (Z.eqb z 0)
  | PStr s => negb (Str.is_empty s)
  | PList l => match l with [] => false | _ => true end
  | PDict d => match d with [] => false | _ => true end
  end.

(** [obj == s] for a [str] literal [s] *)
Definition eq_str (o : pyobj) (s : string) : bool :=
  match o with
  | PStr t => String.eqb t s
  | _ => false
  end.

Fixpoint dict_get (d : list (string * pyobj)) (k : string) : option pyobj :=
  match d with
  | [] => None
  | (k', v) :: r => if String.eqb k' k then Some v else dict_get r k
  end.

(** [obj[k]] for a [str] key [k]: [KeyError] on a [dict] without it,
    [TypeError] on anything that is not a [dict] *)
Definition getitem (o : pyobj) (k : string) : outcome pyobj :=
  match o with
  | PDict d =>
      match dict_get d k with
      | Some v => Ok v
      | None => Raise KeyError
      end
  | _ => Raise TypeError
  end.

(** [obj[key]] for a key that is itself a decoded value: the keys of a
    decoded [dict] are all [str] *)
Definition getitem_obj (o key : pyobj) : outcome pyobj :=
  match o, key with
  | PDict _, PStr k => getitem o k
  | PDict _, (PList _ | PDict _) => Raise TypeError
  | PDict _, _ => Raise KeyError
  | _, _ => Raise TypeError
  end.

Fixpoint chars (s : string) : list pyobj :=
  match s with
  | EmptyString => []
  | String c r => PStr (String c EmptyString) :: chars r
  end.

(** the items [for x in obj] visits *)
Definition iter (o : pyobj) : outcome (list pyobj) :=
  match o with
  | PList l => Ok l
  | PDict d => Ok (map (fun kv => PStr (fst kv)) d)
  | PStr s => Ok (chars s)
  | _ => Raise TypeError
  end.

(** [obj.items()] *)
Definition items (o : pyobj) : outcome (list (string * pyobj)) :=
  match o with
  | PDict d => Ok d
  | _ => Raise AttributeError
  end.

(** [LooseVersion(obj)]: [parse] runs on a true value only, and needs a
    [str] *)
Definition LooseVersion_of (o : pyobj) : outcome LooseVersion :=
  match o with
  | PStr s => Ok (Loose.init s)
  | _ => if truthy o then Raise TypeError else Ok LV_unset
  end.

End Py.

(* ===================================================================== *)
(** ** The outside world and the installer's state *)
(* ===================================================================== *)

(** What the program reads from outside and does not change during a run. *)
Record Env : Type := mkEnv {
  (** the decoded output of the run of [('curl -s ' + text).split()]; a
      [text] without white space is the one URL of the run *)
  curl_s : string -> string;
  (** [json.loads]; [None] when it raises [JSONDecodeError] *)
  json_loads : string -> option pyobj;
  (** pip's [Wheel(fname).supported()] *)
  wheel_supported : pyobj -> outcome bool;
  (** the module constant [CACHE_DIR], an absolute path *)
  CACHE_DIR : string;
  (** [ZipFile(whl).open(member).read().decode('utf-8').splitlines()] *)
  zip_lines : string -> string -> outcome (list string);
  (** unpacking a source archive into its scratch directory: [None] when
      nothing was unpacked or no member ends in [.egg-info/requires.txt],
      else the lines of that file as iterating over the open file yields
      them *)
  requires_lines : string -> outcome (option (list string));
  (** whether the run of [curl -s URL -o FPATH] leaves a regular file at
      [FPATH] *)
  curl_o : string -> string -> bool
}.

(** One run of [curl]. [CurlGet text] is the run of
    [('curl -s ' + text).split()], [CurlDownload url fpath] the run of
    [('curl -s %s -o %s' % (url, fpath)).split()]: the command line is cut
    at white space into the arguments of the run. *)
Inductive curl_call : Type :=
| CurlGet (url : string)
| CurlDownload (url fpath : string).

Record State : Type := mkState {
  (** [self._api_cache] *)
  _api_cache : gmap string pyobj;
  (** the regular files under [CACHE_DIR] *)
  cache_files : gset string;
  (** the runs of [curl] so far, oldest first *)
  curl_calls : list curl_call
}.

Definition M (A : Type) : Type := State -> outcome A * State.

Definition ret {A} (a : A) : M A := fun s => (Ok a, s).

Definition bind {A B} (m : M A) (k : A -> M B) : M B :=
  fun s =>
    match m s with
    | (Ok a, s') => k a s'
    | (Raise e, s') => (Raise e, s')
    | (Exit n, s') => (Exit n, s')
    | (Timeout, s') => (Timeout, s')
    end.

Definition lift {A} (o : outcome A) : M A := fun s => (o, s).

(** [sys.exit(n)] *)
Definition sys_exit {A} (n : Z) : M A := fun s => (Exit n, s).

Notation "x <- e ;; k" := (bind e (fun x => k))
  (at level 100, e at next level, right associativity).

Definition run_curl (c : curl_call) : M unit :=
  fun s => (Ok tt, mkState (_api_cache s) (cache_files s) (curl_calls s ++ [c])).

Definition cache_store (project : string) (response : pyobj) : M unit :=
  fun s => (Ok tt, mkState (<[project := response]> (_api_cache s))
                           (cache_files s) (curl_calls s)).

Definition create_file (fpath : string) : M unit :=
  fun s => (Ok tt, mkState (_api_cache s) ({[fpath]} ∪ cache_files s) (curl_calls s)).

Definition empty_state : State := mkState ∅ ∅ [].

(* ===================================================================== *)
(** ** MetadataClient: get_project_json *)
(* ===================================================================== *)

(** [PROJECT_API % name] *)
Definition PROJECT_API (name : string) : string :=
  ("https://pypi.org/pypi/" ++ name ++ "/json")%string.

(** the class [[\w\.\-\_]] *)
Definition is_301_char (c : ascii) : bool :=
  Str.is_word c || Str.mem c ".-_".

(** [/pypi/([\w\.\-\_]+)/json;] tried at the start of [s]: the group runs
    to the first character outside the class, which must open [/json;] *)
Definition _301_filter_here (s : string) : option string :=
  match Str.strip_prefix "/pypi/" s with
  | None => None
  | Some r =>
      let '(g, r') := Str.span is_301_char r in
      if Str.is_empty g then None
      else if String.prefix "/json;" r' then Some g else None
  end.

(** [self._301_filter.search(text)]: [group(1)] of the leftmost match *)
Fixpoint _301_filter (text : string) : option string :=
  match _301_filter_here text with
  | Some g => Some g
  | None =>
      match text with
      | EmptyString => None
      | String _ r => _301_filter r
      end
  end.

(** [get_response]: one run of [curl], with the command line
    ['curl -s ' + url], and its decoded output *)
Definition get_response (env : Env) (module_name : string) : M string :=
  let url := PROJECT_API module_name in
  _ <- run_curl (CurlGet url) ;;
  ret (curl_s env url).

Definition text2json (env : Env) (text : string) : pyobj :=
  match json_loads env text with
  | Some obj => obj
  | None => PStr text
  end.

Definition check_301_text (obj : pyobj) : bool :=
  match obj with
  | PStr text => match _301_filter text with Some _ => true | None => false end
  | _ => false
  end.

Definition check_301_json (obj : pyobj) : bool :=
  match obj with
  | PDict d =>
      match Py.dict_get d "code" with
      | Some code => Py.eq_str code "301 Moved Permanently"
      | None => false
      end
  | _ => false
  end.

Definition fix_301_text (env : Env) (text : string) : M pyobj :=
  match _301_filter text with
  | Some g =>
      text' <- get_response env g ;;
      ret (text2json env text')
  | None => ret (text2json env text)
  end.

(** [search] needs a [str]: any other [message] raises [TypeError] *)
Definition fix_301_json (env : Env) (obj : pyobj) : M pyobj :=
  message <- lift (Py.getitem obj "message") ;;
  match message with
  | PStr m =>
      match _301_filter m with
      | Some _ =>
          text <- get_response env m ;;
          ret (text2json env text)
      | None => ret obj
      end
  | _ => lift (Raise TypeError)
  end.

Definition max_count : nat := 20.

(** The [while count < max_count] loop; [remaining] is
    [max_count - count]. *)
Fixpoint redirect_loop (env : Env) (remaining : nat) (obj : pyobj) : M pyobj :=
  match remaining with
  | O => ret obj
  | S n =>
      if check_301_text obj then
        match obj with
        | PStr text =>
            obj' <- fix_301_text env text ;;
            redirect_loop env n obj'
        | _ => ret obj
        end
      else if check_301_json obj then
        obj' <- fix_301_json env obj ;;
        redirect_loop env n obj'
      else ret obj
  end.

Definition is_dict (obj : pyobj) : bool :=
  match obj with PDict _ => true | _ => false end.

(** the requests of [get_project_json]: the first one, the redirect it may
    name, and the loop *)
Definition resolve_redirects (env : Env) (project : string) : M pyobj :=
  text <- get_response env project ;;
  obj <- fix_301_text env text ;;
  redirect_loop env max_count obj.

(** [obj if type(obj) == dict else None] *)
Definition dict_or_none (obj : pyobj) : pyobj :=
  if is_dict obj then obj else PNone.

(** the part of [get_project_json] that runs for a name not in the cache *)
Definition fetch_project (env : Env) (project : string) : M pyobj :=
  obj <- resolve_redirects env project ;;
  let response := dict_or_none obj in
  _ <- cache_store project response ;;
  ret response.

Definition get_project_json (env : Env) (project : string) : M pyobj :=
  fun s =>
    match _api_cache s !! project with
    | Some cached => (Ok cached, s)
    | None => fetch_project env project s
    end.

(* ===================================================================== *)
(** ** ArchiveLocator: find_module_file and get_module_url *)
(* ===================================================================== *)

(** the body of the [for file_info in module_objs] loop of
    [find_module_file], over the items the iteration visits *)
Fixpoint find_in (env : Env) (package_type : string) (infos : list pyobj)
    : outcome pyobj :=
  match infos with
  | [] => Ok PNone
  | file_info :: rest =>
      pt <-? Py.getitem file_info "packagetype" ;;
      if negb (Py.eq_str pt package_type) then find_in env package_type rest
      else
        url <-? Py.getitem file_info "url" ;;
        fname <-? Py.getitem file_info "filename" ;;
        python_version <-? Py.getitem file_info "python_version" ;;
        if String.eqb package_type "sdist" && Py.eq_str python_version "source"
        then Ok url
        else
          supported <-? wheel_supported env fname ;;
          if supported : bool then Ok url
          else find_in env package_type rest
  end.

Definition find_module_file (env : Env) (module_objs : pyobj)
    (package_type : string) : outcome pyobj :=
  infos <-? Py.iter module_objs ;;
  find_in env package_type infos.

Definition find_whl (env : Env) (module_objs : pyobj) : outcome pyobj :=
  find_module_file env module_objs "bdist_wheel".

Definition find_source (env : Env) (module_objs : pyobj) : outcome pyobj :=
  find_module_file env module_objs "sdist".

(** the keys of the [finders] table *)
Inductive file_type : Type := whl | source.

Definition finders (env : Env) (ft : file_type) : pyobj -> outcome pyobj :=
  match ft with
  | whl => find_whl env
  | source => find_source env
  end.

(** [sorted(..., reverse=True)] compares keys with [<] only and keeps items
    with equal keys in their original order. [insert_desc] puts [x], which
    stood before every item of the sorted [l], in front of the first item
    that is not greater than it. *)
Fixpoint insert_desc {A} (x : LooseVersion * A) (l : list (LooseVersion * A))
    : outcome (list (LooseVersion * A)) :=
  match l with
  | [] => Ok [x]
  | y :: r =>
      lt <-? Loose.lt (fst x) (fst y) ;;
      if lt : bool then r' <-? insert_desc x r ;; Ok (y :: r')
      else Ok (x :: l)
  end.

Fixpoint sorted_desc {A} (l : list (LooseVersion * A))
    : outcome (list (LooseVersion * A)) :=
  match l with
  | [] => Ok []
  | x :: r => r' <-? sorted_desc r ;; insert_desc x r'
  end.

Definition sort_releases (releases : pyobj) : outcome (list (LooseVersion * pyobj)) :=
  its <-? Py.items releases ;;
  sorted_desc (map (fun vr => (Loose.init (fst vr), snd vr)) its).

(** the [for version, release in sort_releases(...)] loop of [get_url] *)
Fixpoint search_releases (find : pyobj -> outcome pyobj)
    (reqs : list VersionRequirement) (rels : list (LooseVersion * pyobj))
    : outcome pyobj :=
  match rels with
  | [] => Ok PNone
  | (version, release) :: rest =>
      m <-? is_match_version version reqs ;;
      if negb m then search_releases find reqs rest
      else
        url <-? find release ;;
        if Py.truthy url then Ok url
        else search_releases find reqs rest
  end.

(** the last two steps of [get_url]: the flat [urls] list, then every
    release from the newest down *)
Definition get_url_fallback (env : Env) (module : InstallModule)
    (project_obj : pyobj) (ft : file_type) : outcome pyobj :=
  urls <-? Py.getitem project_obj "urls" ;;
  url <-? finders env ft urls ;;
  if Py.truthy url then Ok url
  else
    releases <-? Py.getitem project_obj "releases" ;;
    rels <-? sort_releases releases ;;
    search_releases (finders env ft) (version_requirements module) rels.

Definition get_url (env : Env) (module : InstallModule)
    (project_obj : pyobj) (ft : file_type) : outcome pyobj :=
  info <-? Py.getitem project_obj "info" ;;
  latest_version <-? Py.getitem info "version" ;;
  latest <-? Py.LooseVersion_of latest_version ;;
  m <-? is_match_version latest (version_requirements module) ;;
  if m : bool then
    releases <-? Py.getitem project_obj "releases" ;;
    module_objs <-? Py.getitem_obj releases latest_version ;;
    url <-? finders env ft module_objs ;;
    if Py.truthy url then Ok url
    else get_url_fallback env module project_obj ft
  else get_url_fallback env module project_obj ft.

Definition get_module_url (env : Env) (module : InstallModule) : M pyobj :=
  project <- get_project_json env (name module) ;;
  if negb (Py.truthy project) then sys_exit 1
  else
    whl_url <- lift (get_url env module project whl) ;;
    if Py.truthy whl_url then ret whl_url
    else lift (get_url env module project source).

(** [os.path.join(a, b)] *)
Definition path_join (a b : string) : string :=
  if String.prefix "/" b then b
  else if Str.is_empty a || String.prefix "/" (Str.drop (Nat.pred (String.length a)) a)
  then (a ++ b)%string
  else (a ++ "/" ++ b)%string.

(** [download_module]: [None], or the path of the archive in the cache
    directory; the download is started only when no file is there yet, and
    the path is returned whether or not [curl] has written the file *)
Definition download_module (env : Env) (module : InstallModule) : M (option string) :=
  url <- get_module_url env module ;;
  if negb (Py.truthy url) then ret None
  else
    match url with
    | PStr url =>
        let fname := List.last (Str.split "/" url) EmptyString in
        let fpath := path_join (CACHE_DIR env) fname in
        fun s =>
          if decide (fpath ∈ cache_files s) then (Ok (Some fpath), s)
          else (_ <- run_curl (CurlDownload url fpath) ;;
                _ <- (if curl_o env url fpath then create_file fpath
                      else ret tt) ;;
                ret (Some fpath)) s
    | _ => lift (Raise AttributeError)
    end.

(* ===================================================================== *)
(** ** DependencyExtractor *)
(* ===================================================================== *)

(** the set of single characters tested by [s not in '()!=<>'] *)
Definition no_punctuation (dep : string) : bool :=
  Str.all (fun s => negb (Str.mem s "()!=<>")) dep.

(** [[\w\[\]\-]] *)
Definition is_name_char (c : ascii) : bool := Str.is_word c || Str.mem c "[]-".
(** [[\<\>\=\!]] *)
Definition is_op_char (c : ascii) : bool := Str.mem c "<>=!".
(** [[\<\>\=]] *)
Definition is_src_op_char (c : ascii) : bool := Str.mem c "<>=".
(** [[\w\.]] *)
Definition is_ver_char (c : ascii) : bool := Str.is_word c || Str.mem c ".".
(** [[\<\>\=\!\w\.\,]] *)
Definition is_spec_char (c : ascii) : bool :=
  Str.mem c "<>=!" || Str.is_word c || Str.mem c ".,".

Definition newline : string := String (ascii_of_nat 10) EmptyString.

(** [$]: at the end of the string, or before a newline that ends it *)
Definition at_end (s : string) : bool :=
  Str.is_empty s || String.eqb s newline.

(** the name of a requirement without its extras: [name.split('[')[0]]
    when ['[' in name] *)
Definition strip_extras (name : string) : string :=
  if Str.mem "[" name then List.hd EmptyString (Str.split "[" name) else name.

Module Whl.

Definition deps_label : string := "Requires-Dist:".

(** [^([\w\[\]\-]+) \(([\<\>\=\!\w\.\,]+)\)$]: groups 1 and 2. Neither
    class holds the character that must follow its group, so each group
    is the whole run of its class. *)
Definition module_filter (dep : string) : option (string * string) :=
  let '(g1, r1) := Str.span is_name_char dep in
  if Str.is_empty g1 then None
  else
    match Str.strip_prefix " (" r1 with
    | None => None
    | Some r2 =>
        let '(g2, r3) := Str.span is_spec_char r2 in
        if Str.is_empty g2 then None
        else
          match Str.strip_prefix ")" r3 with
          | Some r4 => if at_end r4 then Some (g1, g2) else None
          | None => None
          end
    end.

(** [([\<\>\=\!]+)([\w\.]+)] tried at the start of [s] *)
Definition version_filter_here (s : string) : option (string * string) :=
  let '(op, r) := Str.span is_op_char s in
  if Str.is_empty op then None
  else
    let '(v, _) := Str.span is_ver_char r in
    if Str.is_empty v then None else Some (op, v).

(** [version_filter.search(s)]: groups 1 and 2 of the leftmost match *)
Fixpoint version_filter (s : string) : option (string * string) :=
  match version_filter_here s with
  | Some m => Some m
  | None =>
      match s with
      | EmptyString => None
      | String _ r => version_filter r
      end
  end.

(** the comprehension over [versions] that skips the [None]s *)
Fixpoint requirements (versions : list (option (string * string)))
    : list VersionRequirement :=
  match versions with
  | [] => []
  | Some (op, v) :: r => VersionRequirement2 (Loose.init v) op :: requirements r
  | None :: r => requirements r
  end.

(** [line.replace(deps_label, '').strip()] *)
Definition dep_of (line : string) : string :=
  Str.strip (Str.remove_all deps_label line).

(** [dep2module]; [None] is Python's [None] *)
Definition dep2module (line : string) : option InstallModule :=
  let dep := dep_of line in
  match module_filter dep with
  | None =>
      if no_punctuation dep then Some (InstallModule1 dep) else None
  | Some (g1, g2) =>
      let name := strip_extras g1 in
      let versions := map version_filter (Str.split "," g2) in
      Some (mkInstallModule name (requirements versions))
  end.

(** the loop over the lines of METADATA: every line with the label
    appends what [dep2module] returns, [None] included *)
Fixpoint scan (lines : list string) : list (option InstallModule) :=
  match lines with
  | [] => []
  | line :: r =>
      if Str.startswith deps_label line then dep2module line :: scan r
      else scan r
  end.

Definition nth_part (parts : list string) (i : nat) : outcome string :=
  match nth_error parts i with
  | Some p => Ok p
  | None => Raise IndexError
  end.

Definition get_whl_dependencies (env : Env) (whl : string)
    : outcome (list (option InstallModule)) :=
  let fname := Str.basename whl in
  let fname_values := Str.split "-" fname in
  name <-? nth_part fname_values 0 ;;
  version <-? nth_part fname_values 1 ;;
  let meta := (name ++ "-" ++ version ++ ".dist-info/METADATA")%string in
  lines <-? zip_lines env whl meta ;;
  Ok (scan lines).

End Whl.

Module Src.

(** [^([\w\[\]\-]+)([\<\>\=]+)([\w\.]+)$]: groups 1, 2 and 3 *)
Definition module_filter (dep : string) : option (string * string * string) :=
  let '(g1, r1) := Str.span is_name_char dep in
  if Str.is_empty g1 then None
  else
    let '(g2, r2) := Str.span is_src_op_char r1 in
    if Str.is_empty g2 then None
    else
      let '(g3, r3) := Str.span is_ver_char r2 in
      if Str.is_empty g3 then None
      else if at_end r3 then Some (g1, g2, g3) else None.

(** [dep2module]: the local [name], cut at the bracket, is computed and
    not used; the request is built from [res.group(1)] *)
Definition dep2module (dep : string) : option InstallModule :=
  match module_filter dep with
  | None =>
      if no_punctuation dep then Some (InstallModule1 dep) else None
  | Some (g1, g2, g3) =>
      let name := strip_extras g1 in
      Some (mkInstallModule g1 [VersionRequirement2 (Loose.init g3) g2])
  end.

(** the lines [parse_requirements] hands to [dep2module] *)
Definition kept (line : string) : bool :=
  negb (Str.is_empty line)
  && negb (Str.startswith "#" line)
  && negb (Str.startswith "[" line).

(** [[m for m in modules if m is not None]] *)
Fixpoint not_none (modules : list (option InstallModule)) : list InstallModule :=
  match modules with
  | [] => []
  | Some m :: r => m :: not_none r
  | None :: r => not_none r
  end.

(** [parse_requirements], on the lines of the open file *)
Definition parse_requirements (raw_lines : list string) : list InstallModule :=
  let line_iter := map Str.strip raw_lines in
  let modules := map dep2module (List.filter kept line_iter) in
  not_none modules.

(** [get_source_dependencies]. The scratch directory and the
    [_extract_dirs] entry, which only the install step reads, are left
    out. *)
Definition get_source_dependencies (env : Env) (source : string)
    : outcome (list InstallModule) :=
  let ext := Str.splitext_ext source in
  if negb (String.eqb ext ".gz" || String.eqb ext ".zip") then Ok []
  else
    r <-? requires_lines env source ;;
    match r with
    | None => Ok []
    | Some lines => Ok (parse_requirements lines)
    end.

End Src.

(** the lines of a declarations file that are to be passed over: blank
    ones, comments and section headers *)
Definition skipped_line (line : string) : Prop :=
  Str.all Str.is_space line = true
  \/ Str.startswith "#" line = true
  \/ Str.startswith "[" line = true.

Definition get_dependencies (env : Env) (module_file : string)
    : outcome (list (option InstallModule)) :=
  if String.eqb (Str.splitext_ext module_file) ".whl"
  then Whl.get_whl_dependencies env module_file
  else deps <-? Src.get_source_dependencies env module_file ;; Ok (map Some deps).

(* ===================================================================== *)
(** ** Resolver and Deduplicator *)
(* ===================================================================== *)

(** [clean_duplicated_files]: the loop with its [cache] set and [result]
    list *)
Fixpoint clean_loop (module_files : list string) (cache : gset string)
    (result : list string) : list string :=
  match module_files with
  | [] => result
  | fpath :: rest =>
      if decide (fpath ∈ cache) then clean_loop rest cache result
      else clean_loop rest ({[fpath]} ∪ cache) (result ++ [fpath])
  end.

Definition clean_duplicated_files (module_files : list string) : list string :=
  clean_loop module_files ∅ [].

(** [list.sort(key=lambda e: e[1])]: ascending and stable. [insert_depth]
    puts [x], which stood before every item of the sorted [l], in front of
    the first item whose depth is not below its own. *)
Fixpoint insert_depth (x : string * Z) (l : list (string * Z)) : list (string * Z) :=
  match l with
  | [] => [x]
  | y :: r => if Z.ltb (snd y) (snd x) then y :: insert_depth x r else x :: l
  end.

Fixpoint sort_by_depth (l : list (string * Z)) : list (string * Z) :=
  match l with
  | [] => []
  | x :: r => insert_depth x (sort_by_depth r)
  end.

(** What [get_module_recursive] returns: below the top level the list of
    [(file, depth)] pairs, at the top level the list of files. *)
Inductive files : Type :=
| Tagged (l : list (string * Z))
| Paths (l : list string).

(** the empty list, as the caller at [depth] reads it *)
Definition no_files (depth : Z) : files :=
  if Z.ltb depth 0 then Tagged [] else Paths [].

(** The [for dep in deps] loop; [recurse] is [get_module_recursive].
    A list of plain paths comes back only from a call at depth 0 or above,
    which a call at depth 0 or below never makes; mixed with the pairs, it
    makes the sort key [e[1]] a character, and ordering it against a depth
    raises. *)
Fixpoint deps_loop (recurse : InstallModule -> Z -> M files) (depth : Z)
    (deps : list (option InstallModule)) (module_files : list (string * Z))
    : M (list (string * Z)) :=
  match deps with
  | [] => ret module_files
  | None :: rest => deps_loop recurse depth rest module_files
  | Some dep :: rest =>
      dep_modules <- recurse dep (depth - 1) ;;
      match dep_modules with
      | Tagged [] | Paths [] => deps_loop recurse depth rest module_files
      | Tagged l => deps_loop recurse depth rest (module_files ++ l)
      | Paths _ => lift (Raise TypeError)
      end
  end.

(** [get_module_recursive]; [fuel] bounds the depth of the recursion *)
Fixpoint get_module_recursive (env : Env) (fuel : nat) (module : InstallModule)
    (depth : Z) : M files :=
  match fuel with
  | O => lift Timeout
  | S fuel' =>
      module_file <- download_module env module ;;
      match module_file with
      | None => ret (no_files depth)
      | Some module_file =>
          deps <- lift (get_dependencies env module_file) ;;
          module_files <- deps_loop (get_module_recursive env fuel') depth deps
                            [(module_file, depth)] ;;
          if Z.ltb depth 0 then ret (Tagged module_files)
          else ret (Paths (clean_duplicated_files
                             (map fst (sort_by_depth module_files))))
      end
  end.

(* ===================================================================== *)
(** ** Computations that only talk to the network *)
(* ===================================================================== *)

(** the state after the [curl] calls [calls] *)
Definition add_calls (s : State) (calls : list curl_call) : State :=
  mkState (_api_cache s) (cache_files s) (curl_calls s ++ calls).

(** an outcome that is a value or an exception *)
Definition returns {A} (v : outcome A) : Prop :=
  match v with
  | Ok _ | Raise _ => True
  | Exit _ | Timeout => False
  end.

(** [m] starts at most [n] [curl] calls and does nothing else to the
    state; its outcome and its calls do not depend on the state, and it
    neither exits nor runs out of fuel *)
Definition net {A} (n : nat) (m : M A) : Prop :=
  exists (v : outcome A) (calls : list curl_call),
    (length calls <= n)%nat /\ returns v /\
    forall s, m s = (v, add_calls s calls).

(** The chain of redirect texts that starts at [obj], cut after [n]
    follows: while the object is a text in which the redirect pattern finds
    a name, that name is followed and the decoded answer is the next
    object. The result is the list of the names followed, in order, and
    the object the chain stops at. *)
Fixpoint follow_texts (env : Env) (n : nat) (obj : pyobj) : list string * pyobj :=
  match n with
  | O => ([], obj)
  | S k =>
      match obj with
      | PStr text =>
          match _301_filter text with
          | Some g =>
              let '(names, last) :=
                follow_texts env k (text2json env (curl_s env (PROJECT_API g))) in
              (g :: names, last)
          | None => ([], obj)
          end
      | _ => ([], obj)
      end
  end.

(** a decoded value that is no text, or an ASCII text *)
Definition ascii_obj (obj : pyobj) : bool :=
  match obj with
  | PStr text => Str.ascii_text text
  | _ => true
  end.

(** the texts on the chain that [follow_texts env n obj] walks, the one it
    stops at included, are ASCII *)
Fixpoint ascii_chain (env : Env) (n : nat) (obj : pyobj) : bool :=
  ascii_obj obj &&
  match n with
  | O => true
  | S k =>
      match obj with
      | PStr text =>
          match _301_filter text with
          | Some g =>
              ascii_chain env k (text2json env (curl_s env (PROJECT_API g)))
          | None => true
          end
      | _ => true
      end
  end.

(** the runs of [curl] that fetch the metadata of [names] *)
Definition gets (names : list string) : list curl_call :=
  map (fun name => CurlGet (PROJECT_API name)) names.

(** the state after a fetch of [project] that made the runs [calls] and
    returned [response] *)
Definition fetched (s : State) (project : string) (response : pyobj)
    (calls : list curl_call) : State :=
  mkState (<[project := response]> (_api_cache s)) (cache_files s)
          (curl_calls s ++ calls).



(** the archive [download_module] settles on for a request, in a run that
    starts with nothing cached *)
Definition path_of (env : Env) (module : InstallModule) : outcome (option string) :=
  fst (download_module env module empty_state).

(** The request graph under [module] is acyclic and every request in it
    resolves: [Walk env module depth acc] holds when the walk from
    [module] at [depth] is a finite tree in which every request gets an
    archive and every archive its dependency list, [acc] being the
    [(archive, depth)] pairs in the order of the walk. *)
Inductive Walk (env : Env) : InstallModule -> Z -> list (string * Z) -> Prop :=
| Walk_node module depth module_file deps acc :
    path_of env module = Ok (Some module_file) ->
    get_dependencies env module_file = Ok deps ->
    WalkDeps env depth deps acc ->
    Walk env module depth ((module_file, depth) :: acc)
with WalkDeps (env : Env) : Z -> list (option InstallModule) -> list (string * Z) -> Prop :=
| WalkDeps_nil depth : WalkDeps env depth [] []
| WalkDeps_none depth rest acc :
    WalkDeps env depth rest acc ->
    WalkDeps env depth (None :: rest) acc
| WalkDeps_some depth dep rest sub acc :
    Walk env dep (depth - 1) sub ->
    WalkDeps env depth rest acc ->
    WalkDeps env depth (Some dep :: rest) (sub ++ acc).

Scheme Walk_min := Minimality for Walk Sort Prop
  with WalkDeps_min := Minimality for WalkDeps Sort Prop.

Combined Scheme Walk_mutind from Walk_min, WalkDeps_min.



(** the list the top-level call makes of the walked pairs *)
Definition install_order (module_files : list (string * Z)) : list string :=
  clean_duplicated_files (map fst (sort_by_depth module_files)).

(** what [get_module_recursive] returns at [depth] for the walked pairs
    [module_files] *)
Definition returned (depth : Z) (module_files : list (string * Z)) : files :=
  if Z.ltb depth 0 then Tagged module_files
  else Paths (install_order module_files).


(* ===================================================================== *)
(** ** Sample worlds *)
(* ===================================================================== *)

Module Examples.

(** an index that knows no package, and archives whose METADATA holds
    [lines] *)
Definition wheel_env (lines : list string) : Env :=
  mkEnv (fun _ => EmptyString) (fun _ => None) (fun _ => Ok true) "/cache"
        (fun _ _ => Ok lines) (fun _ => Ok None)
        (fun _ _ => true).

Definition metadata_lines : list string :=
  [ "Metadata-Version: 2.1";
    "Name: foo";
    "Requires-Dist: bar (>=1.0) ; extra == 'test'" ].

(** a file descriptor of a source archive *)
Definition sdist (pkg ver : string) : pyobj :=
  PDict [ ("url", PStr ("https://files.example/" ++ pkg ++ "-" ++ ver ++ ".tar.gz"));
          ("filename", PStr (pkg ++ "-" ++ ver ++ ".tar.gz"));
          ("packagetype", PStr "sdist");
          ("python_version", PStr "source") ].

(** the metadata of a package with the releases [vers], the first of
    them the latest *)
Definition project (pkg : string) (vers : list string) : pyobj :=
  let latest := List.hd EmptyString vers in
  PDict [ ("info", PDict [("version", PStr latest)]);
          ("releases", PDict (map (fun v => (v, PList [sdist pkg v])) vers));
          ("urls", PList [sdist pkg latest]) ].

Fixpoint lookup_project (known : list (string * list string)) (pkg : string)
    : option pyobj :=
  match known with
  | [] => None
  | (p, vers) :: r =>
      if String.eqb p pkg then Some (project p vers) else lookup_project r pkg
  end.

Fixpoint served (known : list (string * list string)) (url : string) : string :=
  match known with
  | [] => EmptyString
  | (p, _) :: r => if String.eqb url (PROJECT_API p) then p else served r url
  end.

(** An index that serves, for each package of [known], a document that
    decodes to its metadata (the document is written as the package
    name), and nothing for any other name; [requires] gives the
    declarations of the source archives; [sup] is pip's verdict on
    wheels. *)
Definition index_env (known : list (string * list string))
    (requires : string -> outcome (option (list string)))
    (sup : pyobj -> outcome bool) : Env :=
  mkEnv (served known) (lookup_project known) sup "/cache"
        (fun _ _ => Raise IOError) requires
        (fun _ _ => true).

(** [foo] with the releases 2.0 and 1.0 *)
Definition pinned_env (sup : pyobj -> outcome bool) : Env :=
  index_env [("foo", ["2.0"; "1.0"])] (fun _ => Ok None) sup.

(** the request [foo<2.0] *)
Definition foo_below_2 : InstallModule :=
  mkInstallModule "foo" [VersionRequirement2 (Loose.init "2.0") "<"].

(** [app] declares [broken], which the index does not know, and then
    [good] *)
Definition broken_env : Env :=
  index_env [("app", ["1.0"]); ("good", ["1.0"])]
    (fun source =>
       if String.eqb source "/cache/app-1.0.tar.gz"
       then Ok (Some ["broken" ++ newline; "good" ++ newline]%string)
       else Ok None)
    (fun _ => Ok true).

(** [app] declares [liba>=1.0] and [libb]; [liba] declares [libb] *)
Definition diamond_env : Env :=
  index_env [("app", ["1.0"]); ("liba", ["1.0"]); ("libb", ["1.0"])]
    (fun source =>
       if String.eqb source "/cache/app-1.0.tar.gz"
       then Ok (Some ["liba>=1.0" ++ newline; "libb" ++ newline]%string)
       else if String.eqb source "/cache/liba-1.0.tar.gz"
       then Ok (Some ["libb" ++ newline]%string)
       else Ok None)
    (fun _ => Ok true).

Definition app_request : InstallModule := InstallModule1 "app".


Fixpoint letters (k : nat) : string :=
  match k with
  | O => EmptyString
  | S k' => String "a" (letters k')
  end.

(** the metadata at the end of the chain *)
Definition chain_meta : pyobj := project "p" ["1.0"].

(** An index whose answer for [p], [pa], [paa], ... with fewer than
    [hops] letters [a] is a text that sends to the next name, and for
    longer names a document that decodes to [chain_meta]. *)
Definition chain_env (hops : nat) : Env :=
  mkEnv (fun url =>
           let k := (String.length url - String.length (PROJECT_API "p"))%nat in
           if Nat.ltb k hops
           then ("Moved: /pypi/p" ++ letters (S k) ++ "/json;")%string
           else "META")
        (fun text => if String.eqb text "META" then Some chain_meta else None)
        (fun _ => Ok true) "/cache"
        (fun _ _ => Raise IOError) (fun _ => Ok None)
        (fun _ _ => true).

(** the JSON form of a redirect *)
Definition moved : pyobj :=
  PDict [ ("code", PStr "301 Moved Permanently");
          ("message", PStr "/pypi/p/json;") ].

(** an index that answers every request with a document that decodes to
    [moved] *)
Definition moved_env : Env :=
  mkEnv (fun _ => "MOVED")
        (fun text => if String.eqb text "MOVED" then Some moved else None)
        (fun _ => Ok true) "/cache"
        (fun _ _ => Raise IOError) (fun _ => Ok None)
        (fun _ _ => true).

(** an index whose every answer is a redirect text and no JSON *)
Definition loop_env : Env :=
  mkEnv (fun _ => "Moved: /pypi/p/json;") (fun _ => None)
        (fun _ => Ok true) "/cache"
        (fun _ _ => Raise IOError) (fun _ => Ok None)
        (fun _ _ => true).

End Examples.

(* ===================================================================== *)
(** ** The command line *)
(* ===================================================================== *)

(** [str.splitlines()] on ASCII text: a line ends at LF, VT, FF, CR (with
    the LF that follows it), FS, GS or RS; no empty last line *)
Definition is_line_end (c : ascii) : bool :=
  Str.between 10 13 c || Str.between 28 30 c.

Fixpoint splitlines_from (cur : string) (s : string) : list string :=
  match s with
  | EmptyString => if Str.is_empty cur then [] else [cur]
  | String c r =>
      if is_line_end c then
        match r with
        | String d r' =>
            if Ascii.eqb c (ascii_of_nat 13) && Ascii.eqb d (ascii_of_nat 10)
            then cur :: splitlines_from EmptyString r'
            else cur :: splitlines_from EmptyString r
        | EmptyString => [cur]
        end
      else splitlines_from (cur ++ String c EmptyString)%string r
  end.

(** the recursion above is on the text, also after a CR LF pair *)
Definition splitlines (s : string) : list string := splitlines_from EmptyString s.

(** [str.split()]: the runs of characters that are not white space *)
Fixpoint words_from (cur : string) (s : string) : list string :=
  match s with
  | EmptyString => if Str.is_empty cur then [] else [cur]
  | String c r =>
      if Str.is_space c
      then if Str.is_empty cur then words_from EmptyString r
           else cur :: words_from EmptyString r
      else words_from (cur ++ String c EmptyString)%string r
  end.

Definition words (s : string) : list string := words_from EmptyString s.

(** the argument list of a run of [curl]: its command line, cut at white
    space *)
Definition curl_argv (c : curl_call) : list string :=
  match c with
  | CurlGet url => words ("curl -s " ++ url)
  | CurlDownload url fpath => words ("curl -s " ++ url ++ " -o " ++ fpath)
  end.

(** [get_elem], for the indices the program passes (1, 2 and 3) *)
Definition get_elem {A} (list_ : list A) (index : nat) : option A :=
  if Nat.ltb index (length list_) then nth_error list_ index else None.

Module Cli.

(** [^(\w+)==(\w+)$]: groups 1 and 2 *)
Definition version_filter (module : string) : option (string * string) :=
  let '(g1, r1) := Str.span Str.is_word module in
  if Str.is_empty g1 then None
  else
    match Str.strip_prefix "==" r1 with
    | None => None
    | Some r2 =>
        let '(g2, r3) := Str.span Str.is_word r2 in
        if Str.is_empty g2 then None
        else if at_end r3 then Some (g1, g2) else None
    end.

(** the body of the loop of [get_install_modules] *)
Definition get_install_module (module : string) : InstallModule :=
  match version_filter module with
  | Some (g1, g2) => mkInstallModule g1 [VersionRequirement1 (Loose.init g2)]
  | None => InstallModule1 module
  end.

Fixpoint get_install_modules (modules : list string) : list InstallModule :=
  match modules with
  | [] => []
  | module :: rest => get_install_module module :: get_install_modules rest
  end.

(** [get_modules]. [argv] is [sys.argv]; [read_file fname] is [None] when
    [os.path.isfile(fname)] says no, and else what [open(fname, 'r')] and
    [fp.read()] come to: the text of the file, or the exception one of them
    raises (an [OSError] such as [PermissionError] is [IOError] here). *)
Definition get_modules (read_file : string -> option (string + exn))
    (argv : list string) : outcome (list InstallModule) :=
  if Nat.ltb (length argv) 3 then Exit 1
  else
    match get_elem argv 1 with
    | Some sub_cmd =>
        if negb (String.eqb sub_cmd "install") then Exit 1
        else
          match get_elem argv 2 with
          | None => Raise AttributeError
          | Some option =>
              if Str.startswith "-" option then
                if negb (String.eqb option "-r") then Exit 1
                else
                  match get_elem argv 3 with
                  | None => Exit 1
                  | Some fname =>
                      if Str.is_empty fname then Exit 1
                      else
                        match read_file fname with
                        | None => Exit 1
                        | Some (inr e) => Raise e
                        | Some (inl text) =>
                            match splitlines text with
                            | [] => Exit 1
                            | modules => Ok (get_install_modules modules)
                            end
                        end
                  end
              else Ok (get_install_modules (skipn 2 argv))
          end
    | None => Exit 1
    end.

End Cli.

(* ===================================================================== *)
(** ** The installed distributions and the pip check *)
(* ===================================================================== *)

(** [is_already_installed]. [dist_version name] is
    [get_distribution(name).version], [None] when that raises; the bare
    [except] turns every failure into [False]. *)
Definition is_already_installed (dist_version : string -> option string)
    (fname : string) : bool :=
  let names := Str.split "-" fname in
  match nth_error names 0, nth_error names 1 with
  | Some name, Some version =>
      match dist_version name with
      | Some v => String.eqb v version
      | None => false
      end
  | _, _ => false
  end.

Definition check_all_module_files_installed (dist_version : string -> option string)
    (module_files : list string) : bool :=
  all (map (fun fpath => is_already_installed dist_version (Str.basename fpath))
           module_files).

(** [count_skip_module], on the two attributes [setup_skip_counter] sets *)
Definition count_skip_module (top_module_names : list string) (skipped : nat)
    (module_name : string) : nat :=
  if bool_decide (module_name ∈ top_module_names) then S skipped else skipped.

Definition is_all_top_module_skipped (top_module_names : list string)
    (skipped : nat) : bool :=
  Nat.leb (length top_module_names) skipped.

(** The [for module in modules] loop of [start]: the files gathered and
    the count of skipped modules. A call at depth 0 returns a list of
    paths; [os.path.basename] of a pair would raise. *)
Fixpoint gather (env : Env) (dist_version : string -> option string) (fuel : nat)
    (top_module_names : list string) (modules : list InstallModule)
    (module_files : list string) (skipped : nat) : M (list string * nat) :=
  match modules with
  | [] => ret (module_files, skipped)
  | module :: rest =>
      fetched <- get_module_recursive env fuel module 0 ;;
      match fetched with
      | Tagged (_ :: _) => lift (Raise TypeError)
      | Tagged [] =>
          gather env dist_version fuel top_module_names rest module_files
            (count_skip_module top_module_names skipped (name module))
      | Paths fetched_module_files =>
          if check_all_module_files_installed dist_version fetched_module_files
          then gather env dist_version fuel top_module_names rest module_files
                 (count_skip_module top_module_names skipped (name module))
          else gather env dist_version fuel top_module_names rest
                 (module_files ++ fetched_module_files) skipped
      end
  end.

(** the part of [start] from [setup_skip_counter] to the list handed to
    the install loop: [sys.exit(1)] when no file was gathered *)
Definition gather_all (env : Env) (dist_version : string -> option string)
    (fuel : nat) (modules : list InstallModule) : M (list string) :=
  let top_module_names := map name modules in
  r <- gather env dist_version fuel top_module_names modules [] 0 ;;
  match fst r with
  | [] => sys_exit 1
  | module_files => ret (clean_duplicated_files module_files)
  end.





(* ===================================================================== *)
(** ** More sample worlds *)
(* ===================================================================== *)

Module Samples.

(** the metadata of a package whose one release has no file *)
Definition bare_project : pyobj :=
  PDict [ ("info", PDict [("version", PStr "1.0")]);
          ("releases", PDict [("1.0", PList [])]);
          ("urls", PList []) ].

(** an index that knows [bare], which has no file to offer *)
Definition bare_env : Env :=
  mkEnv (fun url => if String.eqb url (PROJECT_API "bare") then "BARE" else EmptyString)
        (fun text => if String.eqb text "BARE" then Some bare_project else None)
        (fun _ => Ok true) "/cache"
        (fun _ _ => Raise IOError) (fun _ => Ok None)
        (fun _ _ => true).




(** nothing is installed but [foo] 1.0 *)
Definition foo_installed (name : string) : option string :=
  if String.eqb name "foo" then Some "1.0" else None.

(** an index with one wheel of [foo] that pip accepts and one it refuses *)
Definition wheel_file (fname : string) : pyobj :=
  PDict [ ("url", PStr ("https://files.example/" ++ fname));
          ("filename", PStr fname);
          ("packagetype", PStr "bdist_wheel");
          ("python_version", PStr "py3") ].

Definition wheels : pyobj :=
  PList [ wheel_file "foo-1.0-cp27-none-win32.whl";
          wheel_file "foo-1.0-py3-none-any.whl" ].

Definition picky_env : Env :=
  mkEnv (fun _ => EmptyString) (fun _ => None)
        (fun fname => Ok (Py.eq_str fname "foo-1.0-py3-none-any.whl")) "/cache"
        (fun _ _ => Raise IOError) (fun _ => Ok None)
        (fun _ _ => true).

(** [Examples.diamond_env] on a connection over which no download
    leaves a file *)
Definition offline_env : Env :=
  let env := Examples.diamond_env in
  mkEnv (curl_s env) (json_loads env) (wheel_supported env) (CACHE_DIR env)
        (zip_lines env) (requires_lines env) (fun _ _ => false).

(** a directory with a readable list of requirements and a file that is
    not UTF-8 text *)
Definition sample_files (fname : string) : option (string + exn) :=
  if String.eqb fname "requirements.txt"
  then Some (inl ("foo==1" ++ newline ++ "bar" ++ newline)%string)
  else if String.eqb fname "latin1.txt" then Some (inr UnicodeDecodeError)
  else None.

End Samples.

(* ===================================================================== *)
(** * Properties *)
(* ===================================================================== *)

(** ** Version matching *)

Lemma comprehension_cons {A B} (f : A -> outcome B) (x : A) (l : list A) :
  comprehension f (x :: l) =
  (y <-? f x ;; ys <-? comprehension f l ;; Ok (y :: ys)).
Proof. reflexivity. Qed.

Lemma is_match_version_comprehension (v : LooseVersion) (C : list VersionRequirement) :
  is_match_version v C =
  (results <-? comprehension
     (fun req => compare_version v (version req) (operator req)) C ;;
   Ok (all results)).
Proof. destruct C; reflexivity. Qed.

Lemma is_match_version_conjunction (v : LooseVersion) (C : list VersionRequirement) :
  is_match_version v C = matches_spec v C.
Proof.
  rewrite is_match_version_comprehension.
  induction C as [|c C IH]; [reflexivity|].
  rewrite comprehension_cons. cbn [matches_spec].
  destruct (compare_version v (version c) (operator c)) as [b| | |]; cbn; try reflexivity.
  rewrite <- IH.
  destruct (comprehension _ C); reflexivity.
Qed.

Lemma matches_spec_true (v : LooseVersion) (C : list VersionRequirement) :
  matches_spec v C = Ok true <->
  Forall (fun c => compare_version v (version c) (operator c) = Ok true) C.
Proof.
  induction C as [|c C IH]; cbn [matches_spec].
  - split; [constructor | reflexivity].
  - split.
    + intros H.
      destruct (compare_version v (version c) (operator c)) as [b| | |] eqn:Hc;
        cbn in H; try discriminate.
      destruct (matches_spec v C) as [bs| | |] eqn:Hm; cbn in H; try discriminate.
      injection H as H. apply andb_true_iff in H as [Hb Hbs]. subst b bs.
      constructor; [exact Hc | apply IH; reflexivity].
    + intros H. inversion H as [|? ? Hc HC]; subst.
      rewrite Hc. apply IH in HC. rewrite HC. reflexivity.
Qed.

(** How the six operators read the sign [z] that [_cmp] found for the
    candidate against the required version. *)
Lemma compare_version_operators (v r : LooseVersion) (z : Z) :
  Loose._cmp v r = Ok (Some z) ->
  compare_version v (Some r) "==" = Ok (Z.eqb z 0)
  /\ compare_version v (Some r) "!=" = Ok (negb (Z.eqb z 0))
  /\ compare_version v (Some r) ">=" = Ok (Z.geb z 0)
  /\ compare_version v (Some r) ">" = Ok (Z.gtb z 0)
  /\ compare_version v (Some r) "<=" = Ok (Z.leb z 0)
  /\ compare_version v (Some r) "<" = Ok (Z.ltb z 0).
Proof.
  intros H. unfold compare_version; cbn.
  unfold Loose.ne, Loose.eq, Loose.ge, Loose.gt, Loose.le, Loose.lt, Loose.ordered.
  rewrite H. cbn. repeat split; reflexivity.
Qed.

(** the lenient ordering is by number where both components are numbers *)
Example is_match_version_numeric :
  is_match_version (Loose.init "1.10")
    [VersionRequirement2 (Loose.init "1.9") ">=";
     VersionRequirement2 (Loose.init "2.0") "<"] = Ok true.
Proof. reflexivity. Qed.

(** C5. [is_match_version v C] is the conjunction of [compare_version] on
    every requirement of [C], each of them evaluated: it is [matches_spec],
    it is true exactly when every requirement holds, and it is true on the
    empty sequence. On a requirement with a version, [compare_version] is
    the comparison of [LooseVersion] that the operator names. *)
Theorem is_match_version_is_and :
  forall (v : LooseVersion) (C : list VersionRequirement),
    is_match_version v C = matches_spec v C
    /\ (is_match_version v C = Ok true <->
        Forall (fun c => compare_version v (version c) (operator c) = Ok true) C)
    /\ is_match_version v [] = Ok true
    /\ (forall r : LooseVersion,
          compare_version v (Some r) "==" = Loose.eq v r
          /\ compare_version v (Some r) "!=" = Loose.ne v r
          /\ compare_version v (Some r) ">=" = Loose.ge v r
          /\ compare_version v (Some r) ">" = Loose.gt v r
          /\ compare_version v (Some r) "<=" = Loose.le v r
          /\ compare_version v (Some r) "<" = Loose.lt v r).
Proof.
  intros v C. split; [apply is_match_version_conjunction|]. split; [|split].
  - rewrite is_match_version_conjunction. apply matches_spec_true.
  - reflexivity.
  - intros r. repeat split.
Qed.

(** ** Deduplication *)

Lemma clean_loop_result (l : list string) (cache : gset string) (result : list string) :
  clean_loop l cache result = result ++ clean_loop l cache [].
Proof.
  revert cache result. induction l as [|x l IH]; intros cache result; cbn.
  - by rewrite app_nil_r.
  - destruct (decide (x ∈ cache)); [apply IH|].
    rewrite (IH _ (result ++ [x])), (IH _ [x]). by rewrite <- app_assoc.
Qed.

Lemma clean_loop_cons (x : string) (l : list string) (cache : gset string) :
  clean_loop (x :: l) cache [] =
  if decide (x ∈ cache) then clean_loop l cache []
  else x :: clean_loop l ({[x]} ∪ cache) [].
Proof.
  cbn. destruct (decide (x ∈ cache)); [done|]. by rewrite clean_loop_result.
Qed.

Lemma elem_of_clean_loop (y : string) (l : list string) (cache : gset string) :
  y ∈ clean_loop l cache [] <-> y ∈ l /\ y ∉ cache.
Proof.
  revert cache. induction l as [|x l IH]; intros cache.
  - cbn. set_solver.
  - rewrite clean_loop_cons. destruct (decide (x ∈ cache)).
    + rewrite IH. set_solver.
    + rewrite elem_of_cons, IH. destruct (decide (y = x)); set_solver.
Qed.

Lemma NoDup_clean_loop (l : list string) (cache : gset string) :
  NoDup (clean_loop l cache []).
Proof.
  revert cache. induction l as [|x l IH]; intros cache.
  - constructor.
  - rewrite clean_loop_cons. destruct (decide (x ∈ cache)); [apply IH|].
    constructor; [|apply IH]. rewrite elem_of_clean_loop. set_solver.
Qed.

Lemma clean_loop_fresh (l : list string) (cache : gset string) :
  NoDup l -> (forall y, y ∈ l -> y ∉ cache) -> clean_loop l cache [] = l.
Proof.
  revert cache. induction l as [|x l IH]; intros cache Hnd Hfresh; [done|].
  rewrite clean_loop_cons. inversion Hnd as [|? ? Hx Hl]; subst.
  destruct (decide (x ∈ cache)) as [Hin|_].
  - exfalso. apply (Hfresh x); [left | done].
  - f_equal. apply IH; [done|]. intros y Hy. specialize (Hfresh y).
    assert (y <> x) by (intros ->; done). set_solver.
Qed.

Lemma clean_loop_app (l1 l2 : list string) (cache : gset string) :
  clean_loop (l1 ++ l2) cache [] =
  clean_loop l1 cache [] ++ clean_loop l2 (list_to_set l1 ∪ cache) [].
Proof.
  revert cache. induction l1 as [|x l1 IH]; intros cache.
  - cbn [app list_to_set clean_loop]. by rewrite (left_id_L ∅ (∪)).
  - rewrite <- app_comm_cons, !clean_loop_cons.
    destruct (decide (x ∈ cache)) as [Hin|Hin]; rewrite IH.
    + do 2 f_equal. set_solver.
    + cbn [app]. do 3 f_equal. set_solver.
Qed.

Lemma clean_duplicated_files_idempotent (l : list string) :
  clean_duplicated_files (clean_duplicated_files l) = clean_duplicated_files l.
Proof.
  unfold clean_duplicated_files. apply clean_loop_fresh.
  - apply NoDup_clean_loop.
  - set_solver.
Qed.

Lemma clean_duplicated_files_first (l1 l2 : list string) (p : string) :
  p ∉ l1 ->
  exists r, clean_duplicated_files (l1 ++ p :: l2) = clean_duplicated_files l1 ++ p :: r
            /\ p ∉ r.
Proof.
  intros Hp. unfold clean_duplicated_files.
  rewrite clean_loop_app, clean_loop_cons.
  destruct (decide (p ∈ list_to_set l1 ∪ (∅ : gset string))) as [Hin|_]; [set_solver|].
  eexists. split; [reflexivity|]. rewrite elem_of_clean_loop. set_solver.
Qed.

Lemma clean_duplicated_files_later (l1 l2 l3 : list string) (p : string) :
  clean_duplicated_files (l1 ++ p :: l2 ++ p :: l3) =
  clean_duplicated_files (l1 ++ p :: l2 ++ l3).
Proof.
  unfold clean_duplicated_files.
  rewrite !(clean_loop_app l1), !clean_loop_cons. f_equal.
  assert (Hskip : forall cache : gset string, p ∈ cache ->
            clean_loop (l2 ++ p :: l3) cache [] = clean_loop (l2 ++ l3) cache []).
  { intros cache Hc. rewrite !clean_loop_app, clean_loop_cons.
    destruct (decide (p ∈ list_to_set l2 ∪ cache)) as [_|Hn]; [done | set_solver]. }
  destruct (decide (p ∈ list_to_set l1 ∪ (∅ : gset string))).
  - by apply Hskip.
  - f_equal. apply Hskip. set_solver.
Qed.

(** C8. [clean_duplicated_files] is idempotent, and of two occurrences of
    one path only the first is kept: the later one changes nothing, and the
    path stands, once, right after what the files before its first
    occurrence contribute. *)
Theorem clean_duplicated_files_idempotent_first_wins :
  (forall l : list string,
     clean_duplicated_files (clean_duplicated_files l) = clean_duplicated_files l)
  /\ (forall (l1 l2 l3 : list string) (p : string),
        p ∉ l1 ->
        clean_duplicated_files (l1 ++ p :: l2 ++ p :: l3) =
          clean_duplicated_files (l1 ++ p :: l2 ++ l3)
        /\ exists r, clean_duplicated_files (l1 ++ p :: l2 ++ p :: l3) =
                       clean_duplicated_files l1 ++ p :: r
                     /\ p ∉ r).
Proof.
  split; [apply clean_duplicated_files_idempotent|].
  intros l1 l2 l3 p Hp. split; [apply clean_duplicated_files_later|].
  by apply clean_duplicated_files_first.
Qed.

Lemma clean_duplicated_files_idempotent_first_wins_witness :
  clean_duplicated_files (clean_duplicated_files ["/cache/a.whl"; "/cache/b.whl"; "/cache/a.whl"])
    = clean_duplicated_files ["/cache/a.whl"; "/cache/b.whl"; "/cache/a.whl"]
  /\ clean_duplicated_files (["/cache/a.whl"] ++ "/cache/b.whl" :: ["/cache/c.whl"] ++ "/cache/b.whl" :: ["/cache/a.whl"])
     = clean_duplicated_files (["/cache/a.whl"] ++ "/cache/b.whl" :: ["/cache/c.whl"] ++ ["/cache/a.whl"])
  /\ exists r, clean_duplicated_files (["/cache/a.whl"] ++ "/cache/b.whl" :: ["/cache/c.whl"] ++ "/cache/b.whl" :: ["/cache/a.whl"])
               = clean_duplicated_files ["/cache/a.whl"] ++ "/cache/b.whl" :: r
               /\ "/cache/b.whl" ∉ r.
Proof.
  destruct clean_duplicated_files_idempotent_first_wins as [Hidem Hfirst].
  split; [apply Hidem|].
  apply (Hfirst ["/cache/a.whl"] ["/cache/c.whl"] ["/cache/a.whl"] "/cache/b.whl").
  intros Hin. apply list_elem_of_In in Hin. cbn in Hin.
  destruct Hin as [Heq|[]]. discriminate Heq.
Defined.

(** ** Character classes and greedy runs *)

Lemma append_nil_l (s : string) : ("" ++ s)%string = s.
Proof. reflexivity. Qed.

Lemma append_cons (c : ascii) (a b : string) :
  (String c a ++ b)%string = String c (a ++ b).
Proof. reflexivity. Qed.

Lemma append_nil_r (s : string) : (s ++ "")%string = s.
Proof. induction s as [|c s IH]; [done | by rewrite append_cons, IH]. Qed.

Lemma span_app (p : ascii -> bool) (a b : string) :
  Str.all p a = true ->
  match b with EmptyString => true | String c _ => negb (p c) end = true ->
  Str.span p (a ++ b) = (a, b).
Proof.
  intros Ha Hb. induction a as [|c a IH].
  - rewrite append_nil_l. destruct b as [|c b]; [reflexivity|]. cbn.
    apply negb_true_iff in Hb. by rewrite Hb.
  - rewrite append_cons. cbn in *.
    apply andb_true_iff in Ha as [Hc Ha]. by rewrite Hc, (IH Ha).
Qed.

Lemma src_op_not_name (c : ascii) :
  is_src_op_char c = true -> is_name_char c = false.
Proof. destruct c as [[] [] [] [] [] [] [] []]; cbn; intros H; done. Qed.

Lemma ver_not_src_op (c : ascii) :
  is_ver_char c = true -> is_src_op_char c = false.
Proof. destruct c as [[] [] [] [] [] [] [] []]; cbn; intros H; done. Qed.

Lemma head_class (p q : ascii -> bool) (s t : string) :
  (forall c, p c = true -> q c = false) ->
  Str.all p s = true -> Str.is_empty s = false ->
  match (s ++ t)%string with EmptyString => true | String c _ => negb (q c) end = true.
Proof.
  intros Hpq Hs Hne. destruct s as [|c s]; [discriminate|].
  rewrite append_cons. cbn in *.
  apply andb_true_iff in Hs as [Hc _]. by rewrite (Hpq c Hc).
Qed.

Lemma all_app (p : ascii -> bool) (a b : string) :
  Str.all p (a ++ b) = Str.all p a && Str.all p b.
Proof.
  induction a as [|c a IH]; [done|].
  rewrite append_cons. cbn. by rewrite IH, andb_assoc.
Qed.

Lemma is_empty_app_l (a b : string) :
  Str.is_empty a = false -> Str.is_empty (a ++ b) = false.
Proof. by destruct a. Qed.

(** ** Source declarations *)

Lemma src_module_filter_match (g1 g2 g3 : string) :
  Str.all is_name_char g1 = true -> Str.is_empty g1 = false ->
  Str.all is_src_op_char g2 = true -> Str.is_empty g2 = false ->
  Str.all is_ver_char g3 = true -> Str.is_empty g3 = false ->
  Src.module_filter (g1 ++ g2 ++ g3) = Some (g1, g2, g3).
Proof.
  intros H1 E1 H2 E2 H3 E3. unfold Src.module_filter.
  rewrite (span_app is_name_char g1 (g2 ++ g3) H1)
    by (apply (head_class is_src_op_char); auto using src_op_not_name).
  rewrite E1.
  rewrite (span_app is_src_op_char g2 g3 H2)
    by (rewrite <- (append_nil_r g3);
        apply (head_class is_ver_char); auto using ver_not_src_op).
  rewrite E2.
  rewrite <- (append_nil_r g3) at 1.
  rewrite (span_app is_ver_char g3 "" H3) by done.
  by rewrite E3.
Qed.

Lemma strip_keeps_head (c : ascii) (r : string) :
  Str.is_space c = false -> Str.strip (String c r) = String c (Str.rstrip r).
Proof.
  intros Hc. unfold Str.strip. cbn [Str.rstrip]. rewrite Hc.
  cbn. by rewrite Hc.
Qed.

Lemma rstrip_blank (s : string) :
  Str.all Str.is_space s = true -> Str.rstrip s = EmptyString.
Proof.
  induction s as [|c s IH]; cbn; [done|]. intros H.
  apply andb_true_iff in H as [Hc Hs]. by rewrite (IH Hs), Hc.
Qed.

Lemma strip_blank (s : string) :
  Str.all Str.is_space s = true -> Str.strip s = EmptyString.
Proof. intros H. unfold Str.strip. by rewrite (rstrip_blank s H). Qed.

Lemma startswith_char (c : ascii) (s : string) :
  Str.startswith (String c EmptyString) s = true ->
  exists r, s = String c r.
Proof.
  unfold Str.startswith. destruct s as [|d s]; cbn; [done|].
  destruct (ascii_dec c d) as [->|]; [eauto | done].
Qed.

Lemma skipped_not_kept (line : string) :
  skipped_line line -> Src.kept (Str.strip line) = false.
Proof.
  intros [H|[H|H]].
  - by rewrite (strip_blank line H).
  - apply startswith_char in H as [r ->].
    rewrite strip_keeps_head by done. unfold Src.kept. cbn.
    by destruct (Str.rstrip r).
  - apply startswith_char in H as [r ->].
    rewrite strip_keeps_head by done. unfold Src.kept. cbn.
    by destruct (Str.rstrip r).
Qed.

Lemma parse_requirements_app (l1 l2 : list string) :
  Src.parse_requirements (l1 ++ l2) =
  Src.parse_requirements l1 ++ Src.parse_requirements l2.
Proof.
  unfold Src.parse_requirements.
  rewrite map_app, List.filter_app, map_app.
  generalize (map Src.dep2module (List.filter Src.kept (map Str.strip l1))).
  intros ms. induction ms as [|[m|] ms IH]; cbn; [done| by rewrite IH | done].
Qed.

Lemma parse_requirements_skip (pre post : list string) (line : string) :
  skipped_line line ->
  Src.parse_requirements (pre ++ line :: post) = Src.parse_requirements (pre ++ post).
Proof.
  intros H. rewrite !parse_requirements_app. f_equal.
  change (line :: post) with ([line] ++ post). rewrite parse_requirements_app.
  unfold Src.parse_requirements at 1. cbn.
  by rewrite (skipped_not_kept line H).
Qed.

(** C7. The declarations line [baz>=2.0] is parsed into the request [baz]
    with the one requirement [>= 2.0]; a blank line, a line starting with
    [#] and a line starting with [[] add nothing to the list
    [parse_requirements] returns, wherever they stand in the file. *)
Theorem parse_requirements_lines :
  Src.parse_requirements ["baz>=2.0" ++ newline]%string =
    [mkInstallModule "baz" [VersionRequirement2 (Loose.init "2.0") ">="]]
  /\ (forall (pre post : list string) (line : string),
        skipped_line line ->
        Src.parse_requirements (pre ++ line :: post) =
        Src.parse_requirements (pre ++ post))
  /\ (forall (env : Env) (source : string) (lines : list string),
        Str.splitext_ext source = ".gz" \/ Str.splitext_ext source = ".zip" ->
        requires_lines env source = Ok (Some lines) ->
        Src.get_source_dependencies env source = Ok (Src.parse_requirements lines)).
Proof.
  split; [reflexivity|]. split; [apply parse_requirements_skip|].
  intros env source lines Hext Hreq. unfold Src.get_source_dependencies.
  rewrite Hreq. by destruct Hext as [-> | ->].
Qed.

Lemma parse_requirements_lines_witness :
  skipped_line "# comment"
  /\ Src.parse_requirements (["baz>=2.0"] ++ "# comment" :: ["qux"]) =
     Src.parse_requirements (["baz>=2.0"] ++ ["qux"])
  /\ Src.get_source_dependencies Examples.diamond_env "/cache/liba-1.0.tar.gz"
     = Ok (Src.parse_requirements ["libb" ++ newline]%string).
Proof.
  assert (H : skipped_line "# comment") by (right; left; reflexivity).
  destruct parse_requirements_lines as (_ & Hskip & Hsrc).
  split; [exact H|]. split.
  - exact (Hskip ["baz>=2.0"] ["qux"] "# comment" H).
  - apply (Hsrc Examples.diamond_env "/cache/liba-1.0.tar.gz"); [by left | reflexivity].
Defined.

(** C10. A declarations line [name[extras]<op><version>] that the source
    pattern matches yields a request whose name is the whole of group 1,
    brackets included: [foo[bar]>=1.0] asks for [foo[bar]]. The wheel
    strategy cuts the name of [foo[bar] (>=1.0)] down to [foo]. *)
Theorem source_dep2module_keeps_extras :
  forall n e op v : string,
    Str.all is_name_char n = true ->
    Str.all is_name_char e = true ->
    Str.all is_src_op_char op = true -> Str.is_empty op = false ->
    Str.all is_ver_char v = true -> Str.is_empty v = false ->
    Src.dep2module ((n ++ "[" ++ e ++ "]") ++ op ++ v) =
      Some (mkInstallModule (n ++ "[" ++ e ++ "]")
              [VersionRequirement2 (Loose.init v) op])
    /\ Src.parse_requirements ["foo[bar]>=1.0" ++ newline]%string =
         [mkInstallModule "foo[bar]" [VersionRequirement2 (Loose.init "1.0") ">="]]
    /\ Whl.dep2module "Requires-Dist: foo[bar] (>=1.0)" =
         Some (mkInstallModule "foo" [VersionRequirement2 (Loose.init "1.0") ">="]).
Proof.
  intros n e op v Hn He Hop Eop Hv Ev.
  split; [|split; reflexivity].
  unfold Src.dep2module.
  rewrite src_module_filter_match; try done.
  - rewrite !all_app, Hn, He. reflexivity.
  - destruct n; reflexivity.
Qed.

Lemma source_dep2module_keeps_extras_witness :
  Src.dep2module "foo[bar]>=1.0" =
    Some (mkInstallModule "foo[bar]" [VersionRequirement2 (Loose.init "1.0") ">="])
  /\ Src.parse_requirements ["foo[bar]>=1.0" ++ newline]%string =
       [mkInstallModule "foo[bar]" [VersionRequirement2 (Loose.init "1.0") ">="]]
  /\ Whl.dep2module "Requires-Dist: foo[bar] (>=1.0)" =
       Some (mkInstallModule "foo" [VersionRequirement2 (Loose.init "1.0") ">="]).
Proof.
  exact (source_dep2module_keeps_extras "foo" "bar" ">=" "1.0"
           eq_refl eq_refl eq_refl eq_refl eq_refl eq_refl).
Defined.

(** ** Wheel metadata *)

Lemma whl_scan_app (l1 l2 : list string) :
  Whl.scan (l1 ++ l2) = Whl.scan l1 ++ Whl.scan l2.
Proof.
  induction l1 as [|l l1 IH]; [done|]. cbn [app Whl.scan].
  destruct (Str.startswith Whl.deps_label l); [cbn; by rewrite IH | done].
Qed.

Lemma whl_scan_line (pre post : list string) (line : string) :
  Str.startswith Whl.deps_label line = true ->
  Whl.scan (pre ++ line :: post) =
  Whl.scan pre ++ Whl.dep2module line :: Whl.scan post.
Proof. intros H. rewrite whl_scan_app. cbn [Whl.scan]. by rewrite H. Qed.

(** what [dep2module] tests: the line without the label, stripped *)
Lemma whl_dep2module_unmatched (line : string) :
  Whl.module_filter (Whl.dep_of line) = None ->
  Whl.dep2module line =
  if no_punctuation (Whl.dep_of line)
  then Some (InstallModule1 (Whl.dep_of line)) else None.
Proof. intros H. unfold Whl.dep2module. fold (Whl.dep_of line). by rewrite H. Qed.

(** C6, as the code has it. [Requires-Dist: foo (>=1.2,!=1.3)] gives [foo]
    with [>= 1.2] and [!= 1.3]; [Requires-Dist: bar] gives [bar] with no
    requirement; a labelled line of ASCII text that fails the pattern gives
    a bare-name request when it has none of the characters [()!=<>], and
    otherwise the entry [None], which stays in the list the extractor
    returns and is passed over by the loop of [get_module_recursive]. *)
Theorem whl_dependency_lines :
  Whl.scan ["Requires-Dist: foo (>=1.2,!=1.3)"] =
    [Some (mkInstallModule "foo"
             [VersionRequirement2 (Loose.init "1.2") ">=";
              VersionRequirement2 (Loose.init "1.3") "!="])]
  /\ Whl.scan ["Requires-Dist: bar"] = [Some (mkInstallModule "bar" [])]
  /\ (forall (pre post : list string) (line : string),
        Str.ascii_text line = true ->
        Str.startswith Whl.deps_label line = true ->
        Whl.module_filter (Whl.dep_of line) = None ->
        (no_punctuation (Whl.dep_of line) = true ->
         Whl.scan (pre ++ line :: post) =
         Whl.scan pre ++ Some (InstallModule1 (Whl.dep_of line)) :: Whl.scan post)
        /\ (no_punctuation (Whl.dep_of line) = false ->
            Whl.scan (pre ++ line :: post) =
            Whl.scan pre ++ None :: Whl.scan post))
  /\ (forall (env : Env) (whl meta_name meta_version : string)
             (more lines : list string),
        Str.split "-" (Str.basename whl) = meta_name :: meta_version :: more ->
        zip_lines env whl (meta_name ++ "-" ++ meta_version ++ ".dist-info/METADATA")
          = Ok lines ->
        Whl.get_whl_dependencies env whl = Ok (Whl.scan lines))
  /\ (forall (recurse : InstallModule -> Z -> M files) (depth : Z)
             (rest : list (option InstallModule)) (module_files : list (string * Z)),
        deps_loop recurse depth (None :: rest) module_files =
        deps_loop recurse depth rest module_files).
Proof.
  split; [reflexivity|]. split; [reflexivity|]. split; [|split].
  - intros pre post line _ Hl Hf.
    rewrite (whl_scan_line pre post line Hl), (whl_dep2module_unmatched line Hf).
    split; intros ->; reflexivity.
  - intros env whl n v more lines Hs Hz. unfold Whl.get_whl_dependencies.
    rewrite Hs. cbn. by rewrite Hz.
  - reflexivity.
Qed.

Lemma whl_dependency_lines_witness :
  Whl.scan (["Name: foo"] ++ "Requires-Dist: bar (>=1.0) ; extra == 'test'"
              :: ["Requires-Dist: baz"])
    = Whl.scan ["Name: foo"] ++ None :: Whl.scan ["Requires-Dist: baz"]
  /\ Whl.get_whl_dependencies (Examples.wheel_env Examples.metadata_lines)
       "/cache/foo-1.0-py3-none-any.whl"
     = Ok (Whl.scan Examples.metadata_lines).
Proof.
  destruct whl_dependency_lines as (_ & _ & Hline & Hzip & _). split.
  - apply (Hline ["Name: foo"] ["Requires-Dist: baz"]
             "Requires-Dist: bar (>=1.0) ; extra == 'test'"); reflexivity.
  - apply (Hzip (Examples.wheel_env Examples.metadata_lines)
             "/cache/foo-1.0-py3-none-any.whl" "foo" "1.0" ["py3"; "none"; "any.whl"]);
      reflexivity.
Defined.

(** C6 as stated fails: the extractor returns the [None] of a labelled line
    that fails the pattern and has constraint punctuation. *)
Lemma whl_unparsable_line_not_dropped :
  Whl.get_whl_dependencies (Examples.wheel_env Examples.metadata_lines)
    "/cache/foo-1.0-py3-none-any.whl" = Ok [None]
  /\ Whl.get_whl_dependencies (Examples.wheel_env Examples.metadata_lines)
       "/cache/foo-1.0-py3-none-any.whl" <> Ok [].
Proof. split; [reflexivity | discriminate]. Qed.

(** ** The state monad *)

Lemma add_calls_nil (s : State) : add_calls s [] = s.
Proof. destruct s. unfold add_calls. cbn. by rewrite app_nil_r. Qed.

Lemma add_calls_app (s : State) (a b : list curl_call) :
  add_calls (add_calls s a) b = add_calls s (a ++ b).
Proof. unfold add_calls. cbn. by rewrite app_assoc. Qed.

Lemma net_ret {A} (a : A) : net 0 (ret a).
Proof.
  exists (Ok a), []. split; [done|]. split; [done|].
  intros s. by rewrite add_calls_nil.
Qed.

Lemma net_lift {A} (o : outcome A) : returns o -> net 0 (lift o).
Proof.
  intros Ho. exists o, []. split; [done|]. split; [done|].
  intros s. by rewrite add_calls_nil.
Qed.

Lemma net_run_curl (c : curl_call) : net 1 (run_curl c).
Proof. exists (Ok tt), [c]. split; [done|]. split; done. Qed.

Lemma net_weaken {A} (n n' : nat) (m : M A) : (n <= n')%nat -> net n m -> net n' m.
Proof.
  intros Hn (v & calls & Hlen & Hv & Hm). exists v, calls.
  split; [lia|]. split; done.
Qed.

Lemma net_bind {A B} (n n' : nat) (m : M A) (k : A -> M B) :
  net n m -> (forall a, net n' (k a)) -> net (n + n') (bind m k).
Proof.
  intros (v & calls & Hlen & Hv & Hm) Hk.
  destruct v as [a|e| |]; try done.
  - destruct (Hk a) as (v' & calls' & Hlen' & Hv' & Hk').
    exists v', (calls ++ calls').
    split; [rewrite length_app; lia|]. split; [done|].
    intros s. unfold bind. by rewrite Hm, Hk', add_calls_app.
  - exists (Raise e), calls. split; [lia|]. split; [done|].
    intros s. unfold bind. by rewrite Hm.
Qed.

Lemma returns_getitem (o : pyobj) (k : string) : returns (Py.getitem o k).
Proof. destruct o; cbn; try done. by destruct (Py.dict_get d k). Qed.

(** ** MetadataClient *)

Lemma net_get_response (env : Env) (module_name : string) :
  net 1 (get_response env module_name).
Proof. apply (net_bind 1 0); [apply net_run_curl | intros; apply net_ret]. Qed.

Lemma net_fix_301_text (env : Env) (text : string) : net 1 (fix_301_text env text).
Proof.
  unfold fix_301_text. destruct (_301_filter text).
  - apply (net_bind 1 0); [apply net_get_response | intros; apply net_ret].
  - apply (net_weaken 0); [lia | apply net_ret].
Qed.

Lemma net_fix_301_json (env : Env) (obj : pyobj) : net 1 (fix_301_json env obj).
Proof.
  unfold fix_301_json. apply (net_bind 0 1).
  - apply net_lift, returns_getitem.
  - intros message.
    destruct message; try (apply (net_weaken 0); [lia | by apply net_lift]).
    destruct (_301_filter s).
    + apply (net_bind 1 0); [apply net_get_response | intros; apply net_ret].
    + apply (net_weaken 0); [lia | apply net_ret].
Qed.

Lemma net_redirect_loop (env : Env) (n : nat) (obj : pyobj) :
  net n (redirect_loop env n obj).
Proof.
  revert obj. induction n as [|n IH]; intros obj; cbn [redirect_loop].
  - apply net_ret.
  - destruct (check_301_text obj).
    + destruct obj; try (apply (net_weaken 0); [lia | apply net_ret]).
      apply (net_bind 1 n); [apply net_fix_301_text | apply IH].
    + destruct (check_301_json obj).
      * apply (net_bind 1 n); [apply net_fix_301_json | apply IH].
      * apply (net_weaken 0); [lia | apply net_ret].
Qed.

Lemma net_resolve_redirects (env : Env) (project : string) :
  net 22 (resolve_redirects env project).
Proof.
  unfold resolve_redirects. apply (net_bind 1 21); [apply net_get_response|].
  intros text. apply (net_bind 1 20); [apply net_fix_301_text|].
  intros obj. apply net_redirect_loop.
Qed.

(** what a fetch of a name that is not cached does to the state *)
Lemma fetch_project_run (env : Env) (project : string) :
  exists (v : outcome pyobj) (calls : list curl_call),
    (length calls <= 22)%nat /\ returns v /\
    forall s,
      fetch_project env project s =
      match v with
      | Ok obj =>
          (Ok (dict_or_none obj),
           mkState (<[project := dict_or_none obj]> (_api_cache s))
                   (cache_files s) (curl_calls s ++ calls))
      | _ => (v, add_calls s calls)
      end.
Proof.
  destruct (net_resolve_redirects env project) as (v & calls & Hlen & Hv & Hm).
  exists v, calls. split; [done|]. split; [done|]. intros s.
  unfold fetch_project, bind. rewrite Hm.
  destruct v; done.
Qed.


Lemma get_response_run (env : Env) (module_name : string) (s : State) :
  get_response env module_name s =
  (Ok (curl_s env (PROJECT_API module_name)),
   add_calls s [CurlGet (PROJECT_API module_name)]).
Proof. reflexivity. Qed.

Lemma bind_run {A B} (m : M A) (k : A -> M B) (a : A) (s s' : State) :
  m s = (Ok a, s') -> bind m k s = k a s'.
Proof. intros H. unfold bind. by rewrite H. Qed.

Lemma fix_301_text_run (env : Env) (text g : string) (s : State) :
  _301_filter text = Some g ->
  fix_301_text env text s =
  (Ok (text2json env (curl_s env (PROJECT_API g))),
   add_calls s [CurlGet (PROJECT_API g)]).
Proof.
  intros H. unfold fix_301_text. rewrite H.
  by rewrite (bind_run _ _ _ _ _ (get_response_run env g s)).
Qed.

(** ** Chains of redirect texts *)

Lemma follow_texts_text (env : Env) (k : nat) (text : string) :
  follow_texts env (S k) (PStr text) =
  match _301_filter text with
  | Some g =>
      let '(names, last) :=
        follow_texts env k (text2json env (curl_s env (PROJECT_API g))) in
      (g :: names, last)
  | None => ([], PStr text)
  end.
Proof. reflexivity. Qed.

Lemma follow_texts_other (env : Env) (k : nat) (obj : pyobj) :
  check_301_text obj = false -> follow_texts env k obj = ([], obj).
Proof.
  intros H. destruct k as [|k]; [done|]. destruct obj; try done.
  rewrite follow_texts_text. unfold check_301_text in H.
  by destruct (_301_filter s).
Qed.

(** the chain stops before the cut only at an object that is no redirect
    text *)
Lemma follow_texts_stop (env : Env) (m : nat) :
  forall (obj : pyobj) (names : list string) (last : pyobj),
    follow_texts env m obj = (names, last) ->
    (length names <= m)%nat
    /\ ((length names < m)%nat -> check_301_text last = false).
Proof.
  induction m as [|m IH]; intros obj names last H.
  - injection H as <- <-. split; [done | cbn; lia].
  - destruct (check_301_text obj) eqn:Hc.
    + destruct obj as [| | |text| |]; try done. rewrite follow_texts_text in H.
      unfold check_301_text in Hc.
      destruct (_301_filter text) as [g|]; [|done].
      destruct (follow_texts env m (text2json env (curl_s env (PROJECT_API g))))
        as [names' last'] eqn:Hf.
      injection H as <- <-. destruct (IH _ _ _ Hf) as [Hlen Hstop].
      cbn [length]. split; [lia|]. intros Hlt. apply Hstop. lia.
    + rewrite (follow_texts_other env _ obj Hc) in H. injection H as <- <-.
      split; [cbn; lia | done].
Qed.

Lemma redirect_loop_done (env : Env) (n : nat) (last : pyobj) (s : State) :
  check_301_text last = false -> check_301_json last = false ->
  redirect_loop env n last s = (Ok last, s).
Proof. intros Ht Hj. destruct n; cbn [redirect_loop]; [done|]. by rewrite Ht, Hj. Qed.

(** the loop follows the chain of redirect texts, one run for each name *)
Lemma redirect_loop_follow (env : Env) (m : nat) :
  forall (n : nat) (obj : pyobj) (names : list string) (last : pyobj) (s : State),
    follow_texts env m obj = (names, last) -> (m <= n)%nat ->
    redirect_loop env n obj s =
    redirect_loop env (n - length names) last (add_calls s (gets names)).
Proof.
  induction m as [|m IH]; intros n obj names last s H Hle.
  - injection H as <- <-. cbn [length gets map]. by rewrite Nat.sub_0_r, add_calls_nil.
  - destruct (check_301_text obj) eqn:Hc.
    + destruct obj as [| | |text| |]; try done. rewrite follow_texts_text in H.
      pose proof Hc as Hc'. unfold check_301_text in Hc'.
      destruct (_301_filter text) as [g|] eqn:Hg; [|done].
      destruct (follow_texts env m (text2json env (curl_s env (PROJECT_API g))))
        as [names' last'] eqn:Hf.
      injection H as <- <-. destruct n as [|n]; [lia|].
      cbn [redirect_loop]. rewrite Hc.
      rewrite (bind_run _ _ _ _ _ (fix_301_text_run env text g s Hg)).
      rewrite (IH n _ _ _ _ Hf) by lia.
      cbn [length gets map Nat.sub]. by rewrite add_calls_app.
    + rewrite (follow_texts_other env _ obj Hc) in H. injection H as <- <-.
      cbn [length gets map]. by rewrite Nat.sub_0_r, add_calls_nil.
Qed.

(** a fetch whose first answer starts a chain of redirect texts: the chain
    is followed for 21 names at most, and what it stops at is the object
    of the fetch, unless that is a redirect in JSON form met before the
    cut *)
Lemma resolve_redirects_follow (env : Env) (project : string)
    (names : list string) (last : pyobj) (s : State) :
  follow_texts env 21 (PStr (curl_s env (PROJECT_API project))) = (names, last) ->
  names <> [] ->
  length names = 21%nat \/ check_301_json last = false ->
  resolve_redirects env project s =
  (Ok last, add_calls s (gets (project :: names))).
Proof.
  intros H Hne Hend. change 21%nat with (S max_count) in H.
  rewrite follow_texts_text in H.
  destruct (_301_filter (curl_s env (PROJECT_API project))) as [g|] eqn:Hg;
    [|by injection H as <- _].
  destruct (follow_texts env max_count
              (text2json env (curl_s env (PROJECT_API g))))
    as [names' last'] eqn:Hf.
  injection H as <- <-. clear Hne.
  unfold resolve_redirects.
  rewrite (bind_run _ _ _ _ _ (get_response_run env project s)).
  rewrite (bind_run _ _ _ _ _ (fix_301_text_run env _ g _ Hg)).
  rewrite (redirect_loop_follow env max_count max_count _ _ _ _ Hf) by done.
  rewrite !add_calls_app. cbn [gets map app].
  destruct (follow_texts_stop env max_count _ _ _ Hf) as [Hlen Hstop].
  destruct (decide (length names' = max_count)) as [Heq|Hlt].
  - rewrite Heq, Nat.sub_diag. reflexivity.
  - apply redirect_loop_done.
    + apply Hstop. lia.
    + destruct Hend as [Hend|Hend]; [|done]. cbn [length] in Hend.
      unfold max_count in Hlt. lia.
Qed.

(** a fetch whose first answer is no redirect *)
Lemma resolve_redirects_direct (env : Env) (project : string) (s : State) :
  let obj := text2json env (curl_s env (PROJECT_API project)) in
  _301_filter (curl_s env (PROJECT_API project)) = None ->
  check_301_text obj = false ->
  check_301_json obj = false ->
  resolve_redirects env project s = (Ok obj, add_calls s (gets [project])).
Proof.
  intros obj Hf Ht Hj. unfold resolve_redirects.
  rewrite (bind_run _ _ _ _ _ (get_response_run env project s)).
  unfold fix_301_text. rewrite Hf.
  rewrite (bind_run _ _ obj _ (add_calls s (gets [project]))) by reflexivity.
  by apply redirect_loop_done.
Qed.

Lemma get_project_json_stores (env : Env) (project : string) (s : State)
    (obj : pyobj) (calls : list curl_call) :
  _api_cache s !! project = None ->
  resolve_redirects env project s = (Ok obj, add_calls s calls) ->
  get_project_json env project s =
  (Ok (dict_or_none obj), fetched s project (dict_or_none obj) calls).
Proof.
  intros Hc Hr. unfold get_project_json. rewrite Hc.
  unfold fetch_project. by rewrite (bind_run _ _ _ _ _ Hr).
Qed.

(** C9. A name in the cache, whatever is stored for it ([None] too), is
    answered from the cache and leaves the state as it was: no run of
    [curl] is started. A fetch of a name not in the cache returns or
    raises; when it returns, what it returns is stored under that name, and
    when it raises, the cache is as it was. It returns, and stores, in
    each of these cases, the texts met being ASCII: the first answer is no
    redirect, and then the decoded answer, if it is a [dict], and else
    [None], is returned after one run; the first answer starts a chain of
    redirect texts, and then what the chain stops at, if it is a [dict],
    and else [None], is returned after one run for the name and one for
    each name followed. *)
Theorem get_project_json_cache :
  forall (env : Env) (project : string) (s : State),
    (forall cached : pyobj,
       _api_cache s !! project = Some cached ->
       get_project_json env project s = (Ok cached, s))
    /\ (_api_cache s !! project = None ->
        match get_project_json env project s with
        | (Ok response, s') =>
            _api_cache s' = <[project := response]> (_api_cache s)
        | (Raise _, s') => _api_cache s' = _api_cache s
        | _ => False
        end)
    /\ (let text := curl_s env (PROJECT_API project) in
        let obj := text2json env text in
        _api_cache s !! project = None ->
        Str.ascii_text text = true ->
        ascii_obj obj = true ->
        _301_filter text = None ->
        check_301_text obj = false ->
        check_301_json obj = false ->
        get_project_json env project s =
        (Ok (dict_or_none obj), fetched s project (dict_or_none obj) (gets [project])))
    /\ (forall (names : list string) (last : pyobj),
          _api_cache s !! project = None ->
          ascii_chain env 21 (PStr (curl_s env (PROJECT_API project))) = true ->
          follow_texts env 21 (PStr (curl_s env (PROJECT_API project))) = (names, last) ->
          names <> [] ->
          length names = 21%nat \/ check_301_json last = false ->
          get_project_json env project s =
          (Ok (dict_or_none last),
           fetched s project (dict_or_none last) (gets (project :: names)))).
Proof.
  intros env project s. split; [|split; [|split]].
  - intros cached H. unfold get_project_json. by rewrite H.
  - intros H. unfold get_project_json. rewrite H.
    destruct (fetch_project_run env project) as (v & calls & _ & Hv & Hm).
    rewrite Hm. destruct v; done.
  - intros text obj Hc _ _ Hf Ht Hj. apply get_project_json_stores; [done|].
    by apply resolve_redirects_direct.
  - intros names last Hc _ Hf Hne Hend. apply get_project_json_stores; [done|].
    by apply resolve_redirects_follow.
Qed.

Lemma get_project_json_cache_witness :
  get_project_json Examples.broken_env "broken"
    (mkState {["broken" := PNone]} ∅ []) =
    (Ok PNone, mkState {["broken" := PNone]} ∅ [])
  /\ get_project_json Examples.diamond_env "liba" empty_state =
     (Ok (Examples.project "liba" ["1.0"]),
      mkState {["liba" := Examples.project "liba" ["1.0"]]} ∅
              [CurlGet "https://pypi.org/pypi/liba/json"])
  /\ get_project_json Examples.broken_env "broken" empty_state =
     (Ok PNone,
      mkState {["broken" := PNone]} ∅ [CurlGet "https://pypi.org/pypi/broken/json"])
  /\ get_project_json (Examples.chain_env 2) "p" empty_state =
     (Ok Examples.chain_meta,
      mkState {["p" := Examples.chain_meta]} ∅
              [CurlGet "https://pypi.org/pypi/p/json";
               CurlGet "https://pypi.org/pypi/pa/json";
               CurlGet "https://pypi.org/pypi/paa/json"]).
Proof.
  destruct (get_project_json_cache Examples.broken_env "broken"
              (mkState {["broken" := PNone]} ∅ [])) as (Hhit & _).
  destruct (get_project_json_cache Examples.diamond_env "liba" empty_state)
    as (_ & _ & Hdict & _).
  destruct (get_project_json_cache Examples.broken_env "broken" empty_state)
    as (_ & _ & Hnone & _).
  destruct (get_project_json_cache (Examples.chain_env 2) "p" empty_state)
    as (_ & _ & _ & Hchain).
  split; [|split; [|split]].
  - apply Hhit. reflexivity.
  - apply Hdict; reflexivity.
  - apply Hnone; reflexivity.
  - apply (Hchain ["pa"; "paa"] Examples.chain_meta);
      [reflexivity | reflexivity | reflexivity | discriminate | by right].
Defined.

(** ** Redirects *)

Lemma get_project_json_calls (env : Env) (project : string) (s : State) :
  exists calls : list curl_call,
    (length calls <= 22)%nat
    /\ curl_calls (snd (get_project_json env project s)) = curl_calls s ++ calls.
Proof.
  unfold get_project_json. destruct (_api_cache s !! project).
  - exists []. split; [cbn; lia | cbn; by rewrite app_nil_r].
  - destruct (fetch_project_run env project) as (v & calls & Hlen & _ & Hm).
    exists calls. split; [done|]. rewrite Hm. by destruct v.
Qed.

Lemma get_project_json_shape (env : Env) (project : string) (s : State) (r : pyobj) :
  _api_cache s !! project = None ->
  fst (get_project_json env project s) = Ok r ->
  is_dict r = true \/ r = PNone.
Proof.
  unfold get_project_json. intros -> H.
  destruct (fetch_project_run env project) as (v & calls & _ & _ & Hm).
  rewrite Hm in H. destruct v as [obj| | |]; cbn in H; try discriminate.
  injection H as <-. unfold dict_or_none.
  destruct (is_dict obj) eqn:Hd; [by left | by right].
Qed.

(** C3, as the code has it. A fetch always comes back, after at most 22
    runs of [curl]: the first one, the redirect its text may name, and one
    for each of at most 20 turns of the loop. What it returns for a name
    not in the cache is a [dict] or [None], never a text. A chain of
    redirect texts, all ASCII, is followed for 21 names: when it stops
    within them at an object that is no redirect, that object, if it is a
    [dict], and else [None], is returned and cached, after one run for the
    name and one for each name followed; when the answer to the 21st
    follow is still a redirect text, [None] is returned and cached after 22
    runs. *)
Theorem get_project_json_redirect_bound :
  forall (env : Env) (project : string) (s : State),
    (exists calls : list curl_call,
       (length calls <= 22)%nat
       /\ curl_calls (snd (get_project_json env project s)) = curl_calls s ++ calls)
    /\ (forall r : pyobj,
          _api_cache s !! project = None ->
          fst (get_project_json env project s) = Ok r ->
          is_dict r = true \/ r = PNone)
    /\ (forall (names : list string) (last : pyobj),
          _api_cache s !! project = None ->
          ascii_chain env 21 (PStr (curl_s env (PROJECT_API project))) = true ->
          follow_texts env 21 (PStr (curl_s env (PROJECT_API project))) = (names, last) ->
          names <> [] ->
          check_301_json last = false ->
          (length names <= 21)%nat
          /\ ((length names < 21)%nat -> check_301_text last = false)
          /\ get_project_json env project s =
             (Ok (dict_or_none last),
              fetched s project (dict_or_none last) (gets (project :: names))))
    /\ (forall (names : list string) (last : pyobj),
          _api_cache s !! project = None ->
          ascii_chain env 21 (PStr (curl_s env (PROJECT_API project))) = true ->
          follow_texts env 21 (PStr (curl_s env (PROJECT_API project))) = (names, last) ->
          check_301_text last = true ->
          length (gets (project :: names)) = 22%nat
          /\ get_project_json env project s =
             (Ok PNone, fetched s project PNone (gets (project :: names)))).
Proof.
  intros env project s. split; [apply get_project_json_calls|]. split; [|split].
  - intros r. apply get_project_json_shape.
  - intros names last Hc _ Hf Hne Hj.
    destruct (follow_texts_stop env 21 _ _ _ Hf) as [Hlen Hstop].
    split; [done|]. split; [done|].
    apply get_project_json_stores; [done|].
    apply resolve_redirects_follow; [done | done | by right].
  - intros names last Hc _ Hf Ht.
    destruct (follow_texts_stop env 21 _ _ _ Hf) as [Hlen Hstop].
    assert (Hfull : length names = 21%nat).
    { destruct (decide (length names = 21%nat)) as [|Hne]; [done|].
      rewrite Hstop in Ht by lia. discriminate. }
    split; [unfold gets; rewrite length_map; cbn [length]; by rewrite Hfull|].
    assert (Hnone : dict_or_none last = PNone).
    { destruct last; try done. }
    rewrite <- Hnone. apply get_project_json_stores; [done|].
    apply resolve_redirects_follow; [done | | by left].
    intros ->. discriminate Hfull.
Qed.

Lemma get_project_json_redirect_bound_witness :
  get_project_json (Examples.chain_env 22) "p" empty_state =
    (Ok PNone,
     fetched empty_state "p" PNone
       (gets ("p" :: map (fun k => ("p" ++ Examples.letters k)%string) (seq 1 21))))
  /\ get_project_json (Examples.chain_env 3) "p" empty_state =
     (Ok Examples.chain_meta,
      fetched empty_state "p" Examples.chain_meta (gets ["p"; "pa"; "paa"; "paaa"])).
Proof.
  destruct (get_project_json_redirect_bound (Examples.chain_env 22) "p" empty_state)
    as (_ & _ & _ & Hnull).
  destruct (get_project_json_redirect_bound (Examples.chain_env 3) "p" empty_state)
    as (_ & _ & Hstop & _).
  split.
  - apply (Hnull (map (fun k => ("p" ++ Examples.letters k)%string) (seq 1 21))
                 (PStr ("Moved: /pypi/p" ++ Examples.letters 22 ++ "/json;")));
      reflexivity.
  - apply (Hstop ["pa"; "paa"; "paaa"] Examples.chain_meta);
      [reflexivity | reflexivity | reflexivity | discriminate | reflexivity].
Defined.

(** C3 as stated fails: a chain of 21 redirects is followed to its end, and
    the metadata found there is returned, after 22 runs of [curl]. *)
Lemma redirect_hop_21_resolved :
  fst (get_project_json (Examples.chain_env 21) "p" empty_state) = Ok Examples.chain_meta
  /\ length (curl_calls (snd (get_project_json (Examples.chain_env 21) "p" empty_state)))
     = 22%nat
  /\ fst (get_project_json (Examples.chain_env 22) "p" empty_state) = Ok PNone.
Proof. vm_compute. repeat split. Qed.

(** The JSON form of a redirect is a [dict]: when the loop gives up on it,
    it is returned and cached as the metadata, and [get_module_url] raises
    on it. *)
Lemma json_redirect_returned_as_metadata :
  fst (get_project_json Examples.moved_env "p" empty_state) = Ok Examples.moved
  /\ check_301_json Examples.moved = true
  /\ length (curl_calls (snd (get_project_json Examples.moved_env "p" empty_state)))
     = 21%nat
  /\ fst (get_module_url Examples.moved_env (InstallModule1 "p") empty_state)
     = Raise KeyError.
Proof. vm_compute. repeat split. Qed.

(** ** Unresolvable packages *)

Lemma get_module_url_exit (env : Env) (module : InstallModule) (s s' : State) (project : pyobj) :
  get_project_json env (name module) s = (Ok project, s') ->
  Py.truthy project = false ->
  get_module_url env module s = (Exit 1, s').
Proof. intros H Hp. unfold get_module_url, bind. by rewrite H, Hp. Qed.

Lemma deps_loop_exit (recurse : InstallModule -> Z -> M files) (depth : Z)
    (dep : InstallModule) (rest : list (option InstallModule))
    (module_files : list (string * Z)) (s s' : State) (n : Z) :
  recurse dep (depth - 1) s = (Exit n, s') ->
  deps_loop recurse depth (Some dep :: rest) module_files s = (Exit n, s').
Proof. intros H. cbn. unfold bind. by rewrite H. Qed.

(** C1, as the code has it. When the fetch of a request's metadata yields
    [None], [get_module_url] does not return: it leaves through
    [sys.exit(1)], and so do [download_module], [get_module_recursive] and
    the loop over the dependencies of the archive that asked for it, which
    does not reach the requests after it. A request whose metadata is there
    and holds no usable file is the one reported by a null URL:
    [download_module] returns [None], [get_module_recursive] the empty
    list, and the loop goes on to the next request. *)
Theorem null_metadata_exits :
  forall (env : Env) (module : InstallModule) (s s' : State),
    (get_project_json env (name module) s = (Ok PNone, s') ->
     get_module_url env module s = (Exit 1, s')
     /\ download_module env module s = (Exit 1, s')
     /\ (forall (fuel : nat) (depth : Z),
           get_module_recursive env (S fuel) module depth s = (Exit 1, s'))
     /\ (forall (fuel : nat) (depth : Z) (rest : list (option InstallModule))
                (module_files : list (string * Z)),
           deps_loop (get_module_recursive env (S fuel)) depth (Some module :: rest)
             module_files s = (Exit 1, s')))
    /\ (forall url : pyobj,
          get_module_url env module s = (Ok url, s') ->
          Py.truthy url = false ->
          download_module env module s = (Ok None, s')
          /\ (forall (fuel : nat) (depth : Z),
                get_module_recursive env (S fuel) module depth s
                = (Ok (no_files depth), s'))
          /\ (forall (fuel : nat) (depth : Z) (rest : list (option InstallModule))
                     (module_files : list (string * Z)),
                deps_loop (get_module_recursive env (S fuel)) depth (Some module :: rest)
                  module_files s
                = deps_loop (get_module_recursive env (S fuel)) depth rest
                    module_files s')).
Proof.
  intros env module s s'. split.
  - intros H.
    assert (Hurl : get_module_url env module s = (Exit 1, s'))
      by (by apply (get_module_url_exit env module s s' PNone)).
    assert (Hdl : download_module env module s = (Exit 1, s'))
      by (unfold download_module, bind; by rewrite Hurl).
    assert (Hrec : forall fuel depth,
              get_module_recursive env (S fuel) module depth s = (Exit 1, s'))
      by (intros; cbn [get_module_recursive]; unfold bind; by rewrite Hdl).
    repeat split; try done.
    intros fuel depth rest module_files. by apply deps_loop_exit.
  - intros url Hurl Hf.
    assert (Hdl : download_module env module s = (Ok None, s'))
      by (unfold download_module, bind; by rewrite Hurl, Hf).
    assert (Hrec : forall fuel depth,
              get_module_recursive env (S fuel) module depth s
              = (Ok (no_files depth), s'))
      by (intros; cbn [get_module_recursive]; unfold bind; by rewrite Hdl).
    repeat split; try done.
    intros fuel depth rest module_files. cbn [deps_loop]. unfold bind.
    rewrite Hrec. unfold no_files. by destruct (Z.ltb (depth - 1) 0).
Qed.

Lemma null_metadata_exits_witness :
  get_module_url Examples.broken_env (InstallModule1 "broken") empty_state
    = (Exit 1, snd (get_project_json Examples.broken_env "broken" empty_state))
  /\ download_module Examples.broken_env (InstallModule1 "broken") empty_state
    = (Exit 1, snd (get_project_json Examples.broken_env "broken" empty_state)).
Proof.
  destruct (proj1 (null_metadata_exits Examples.broken_env (InstallModule1 "broken")
                     empty_state
                     (snd (get_project_json Examples.broken_env "broken" empty_state))))
    as (H1 & H2 & _).
  - reflexivity.
  - split; [exact H1 | exact H2].
Defined.

(** C1 as stated fails: the metadata of [broken] is [None], and
    [get_module_url] exits instead of returning; the walk from [app], which
    declares [broken] and then [good], exits with it and never asks for
    [good]. *)
Lemma null_metadata_aborts_siblings :
  fst (get_project_json Examples.broken_env "broken" empty_state) = Ok PNone
  /\ fst (get_module_url Examples.broken_env (InstallModule1 "broken") empty_state)
     = Exit 1
  /\ fst (get_module_recursive Examples.broken_env 3 (InstallModule1 "app") 0 empty_state)
     = Exit 1
  /\ curl_calls (snd (get_module_recursive Examples.broken_env 3 (InstallModule1 "app") 0
                        empty_state))
     = [ CurlGet "https://pypi.org/pypi/app/json";
         CurlDownload "https://files.example/app-1.0.tar.gz" "/cache/app-1.0.tar.gz";
         CurlGet "https://pypi.org/pypi/broken/json" ].
Proof. vm_compute. repeat split. Qed.

(** ** Locating an archive *)

(** the loop over the sorted releases returns files of matching versions
    only *)
Lemma search_releases_matches (find : pyobj -> outcome pyobj)
    (reqs : list VersionRequirement) (rels : list (LooseVersion * pyobj)) (url : pyobj) :
  search_releases find reqs rels = Ok url ->
  Py.truthy url = true ->
  exists version release,
    In (version, release) rels
    /\ is_match_version version reqs = Ok true
    /\ find release = Ok url.
Proof.
  induction rels as [|[version release] rels IH]; cbn; intros H Hu.
  - injection H as <-. discriminate.
  - destruct (is_match_version version reqs) as [m| | |] eqn:Hm; cbn in H; try discriminate.
    destruct m; cbn in H.
    + destruct (find release) as [u| | |] eqn:Hf; cbn in H; try discriminate.
      destruct (Py.truthy u) eqn:Htu.
      * injection H as <-. exists version, release. auto.
      * destruct (IH H Hu) as (v & r & Hin & Hv & Hr). exists v, r. auto.
    + destruct (IH H Hu) as (v & r & Hin & Hv & Hr). exists v, r. auto.
Qed.

(** C2 on the code: for [foo<2.0] against an index whose latest [foo] is
    2.0, with 1.0 among the releases, [get_module_url] returns the archive
    of 2.0, found in the flat [urls] list, which is searched without a look
    at the requirements. *)
Theorem urls_list_ignores_constraints :
  forall sup : pyobj -> outcome bool,
    fst (get_module_url (Examples.pinned_env sup) Examples.foo_below_2 empty_state)
      = Ok (PStr "https://files.example/foo-2.0.tar.gz")
    /\ is_match_version (Loose.init "2.0") (version_requirements Examples.foo_below_2)
       = Ok false
    /\ is_match_version (Loose.init "1.0") (version_requirements Examples.foo_below_2)
       = Ok true
    /\ find_source (Examples.pinned_env sup) (PList [Examples.sdist "foo" "1.0"])
       = Ok (PStr "https://files.example/foo-1.0.tar.gz").
Proof. intros sup. vm_compute. repeat split. Qed.

(** ** Runs that start from a consistent cache *)







(** ** The walk *)





(** ** Sorting by depth *)

Lemma insert_depth_perm (x : string * Z) (l : list (string * Z)) :
  Permutation (insert_depth x l) (x :: l).
Proof.
  induction l as [|y l IH]; cbn; [done|].
  destruct (Z.ltb (snd y) (snd x)); [|done].
  rewrite IH. apply perm_swap.
Qed.

Lemma sort_by_depth_perm (l : list (string * Z)) :
  Permutation (sort_by_depth l) l.
Proof.
  induction l as [|x l IH]; cbn; [done|].
  rewrite insert_depth_perm. by constructor.
Qed.

Lemma elem_of_sort_by_depth (x : string * Z) (l : list (string * Z)) :
  x ∈ sort_by_depth l <-> x ∈ l.
Proof. by rewrite sort_by_depth_perm. Qed.






(** ** The order of the returned list *)

Lemma elem_of_clean (p : string) (l : list string) :
  p ∈ clean_duplicated_files l <-> p ∈ l.
Proof.
  unfold clean_duplicated_files. rewrite elem_of_clean_loop. set_solver.
Qed.









(* ===================================================================== *)
(** * Further properties of the code *)
(* ===================================================================== *)

(** ** Runs of a character class *)

Lemma str_app_assoc (a b c : string) : ((a ++ b) ++ c)%string = (a ++ b ++ c)%string.
Proof.
  induction a as [|x a IH]; [done|]. by rewrite !append_cons, IH.
Qed.

Lemma span_spec (p : ascii -> bool) (s a b : string) :
  Str.span p s = (a, b) ->
  s = (a ++ b)%string /\ Str.all p a = true
  /\ match b with EmptyString => true | String c _ => negb (p c) end = true.
Proof.
  revert a b. induction s as [|c s IH]; intros a b H; cbn in H.
  - by injection H as <- <-.
  - destruct (p c) eqn:Hc.
    + destruct (Str.span p s) as [a' b'] eqn:Hs. injection H as <- <-.
      destruct (IH a' b' eq_refl) as (-> & Ha & Hb).
      rewrite append_cons. cbn. by rewrite Hc, Ha.
    + injection H as <- <-. rewrite append_nil_l. cbn. by rewrite Hc.
Qed.

Lemma strip_prefix_spec (pre s r : string) :
  Str.strip_prefix pre s = Some r -> s = (pre ++ r)%string.
Proof.
  revert s. induction pre as [|a pre IH]; intros s H; cbn in H.
  - by injection H as ->.
  - destruct s as [|b s]; [done|].
    destruct (Ascii.eqb a b) eqn:Hab; [|done].
    apply Ascii.eqb_eq in Hab as ->. rewrite append_cons. f_equal. by apply IH.
Qed.

Lemma strip_prefix_app (pre r : string) : Str.strip_prefix pre (pre ++ r) = Some r.
Proof.
  induction pre as [|a pre IH]; [by destruct r|].
  rewrite append_cons. cbn. by rewrite Ascii.eqb_refl.
Qed.

Lemma mem_app (c : ascii) (a b : string) :
  Str.mem c (a ++ b) = Str.mem c a || Str.mem c b.
Proof.
  induction a as [|x a IH]; [done|].
  rewrite append_cons. cbn. by rewrite IH, orb_assoc.
Qed.

Lemma all_mem (p : ascii -> bool) (c : ascii) (s : string) :
  Str.all p s = true -> Str.mem c s = true -> p c = true.
Proof.
  induction s as [|x s IH]; cbn; [done|]. intros Ha Hm.
  apply andb_true_iff in Ha as [Hx Ha]. apply orb_true_iff in Hm as [Hm|Hm].
  - by apply Ascii.eqb_eq in Hm as ->.
  - by apply IH.
Qed.

Lemma at_end_spec (r : string) : at_end r = true -> r = EmptyString \/ r = newline.
Proof.
  unfold at_end. intros H. apply orb_true_iff in H as [H|H].
  - left. by destruct r.
  - right. by apply String.eqb_eq.
Qed.

Lemma is_empty_false (s : string) : Str.is_empty s = false <-> s <> EmptyString.
Proof. by destruct s. Qed.

(** ** The command line *)

Lemma cli_version_filter_inv (module g1 g2 : string) :
  Cli.version_filter module = Some (g1, g2) ->
  (module = (g1 ++ "==" ++ g2)%string \/ module = (g1 ++ "==" ++ g2 ++ newline)%string)
  /\ Str.all Str.is_word g1 = true /\ Str.all Str.is_word g2 = true
  /\ g1 <> EmptyString /\ g2 <> EmptyString.
Proof.
  unfold Cli.version_filter. intros H.
  destruct (Str.span Str.is_word module) as [a r1] eqn:E1.
  destruct (Str.is_empty a) eqn:Ea; [done|].
  destruct (Str.strip_prefix "==" r1) as [r2|] eqn:E2; [|done].
  destruct (Str.span Str.is_word r2) as [b r3] eqn:E3.
  destruct (Str.is_empty b) eqn:Eb; [done|].
  destruct (at_end r3) eqn:E4; [|done]. injection H as <- <-.
  apply span_spec in E1 as (-> & Ha & _). apply span_spec in E3 as (-> & Hb & _).
  apply strip_prefix_spec in E2 as ->.
  split; [|by rewrite <- !is_empty_false].
  destruct (at_end_spec r3 E4) as [-> | ->]; [left | right]; [|done].
  by rewrite append_nil_r.
Qed.

Lemma cli_version_filter_match (n v : string) :
  Str.all Str.is_word n = true -> Str.is_empty n = false ->
  Str.all Str.is_word v = true -> Str.is_empty v = false ->
  Cli.version_filter (n ++ "==" ++ v) = Some (n, v).
Proof.
  intros Hn En Hv Ev. unfold Cli.version_filter.
  rewrite (span_app Str.is_word n ("==" ++ v) Hn) by done.
  rewrite En, strip_prefix_app.
  rewrite <- (append_nil_r v) at 1.
  rewrite (span_app Str.is_word v "" Hv) by done.
  by rewrite Ev.
Qed.

(** X1. [get_install_modules] makes one request of each token, in order.
    The token [name==version] with both sides made of word characters
    becomes [name] pinned to that version; a token with any ASCII character
    that is neither a word character, nor [=], nor a line feed (a dot, a
    dash, a bracket) becomes a request for the whole token as a name,
    unpinned. *)
Theorem get_install_modules_tokens :
  (forall modules : list string,
     Cli.get_install_modules modules = map Cli.get_install_module modules)
  /\ (forall n v : string,
        Str.all Str.is_word n = true -> Str.is_empty n = false ->
        Str.all Str.is_word v = true -> Str.is_empty v = false ->
        Cli.get_install_module (n ++ "==" ++ v) =
          mkInstallModule n [VersionRequirement1 (Loose.init v)])
  /\ (forall (module : string) (c : ascii),
        Str.mem c module = true ->
        Str.is_ascii c = true ->
        Str.is_word c = false -> c <> "="%char -> c <> ascii_of_nat 10 ->
        Cli.get_install_module module = InstallModule1 module).
Proof.
  split; [|split].
  - induction modules as [|m ms IH]; [done|]. cbn. by rewrite IH.
  - intros n v Hn En Hv Ev. unfold Cli.get_install_module.
    by rewrite cli_version_filter_match.
  - intros module c Hc _ Hw He Hl. unfold Cli.get_install_module.
    destruct (Cli.version_filter module) as [[g1 g2]|] eqn:Hf; [|done].
    exfalso. apply cli_version_filter_inv in Hf as (Hm & H1 & H2 & _).
    assert (Hin : Str.mem c g1 || (Str.mem c "==" || (Str.mem c g2 || Str.mem c newline))
                  = true).
    { destruct Hm as [-> | ->]; rewrite !mem_app in Hc; [|done].
      destruct (Str.mem c g1), (Str.mem c "=="), (Str.mem c g2); done. }
    unfold newline in Hin. cbn [Str.mem] in Hin.
    repeat (apply orb_true_iff in Hin as [Hin|Hin]);
      try discriminate;
      try (rewrite (all_mem _ c _ H1 Hin) in Hw; discriminate);
      try (rewrite (all_mem _ c _ H2 Hin) in Hw; discriminate);
      apply Ascii.eqb_eq in Hin; done.
Qed.

Lemma get_install_modules_tokens_witness :
  Cli.get_install_module "requests==2" =
    mkInstallModule "requests" [VersionRequirement1 (Loose.init "2")]
  /\ Cli.get_install_module "requests==2.31.0" = InstallModule1 "requests==2.31.0".
Proof.
  destruct get_install_modules_tokens as (_ & Hpin & Hbare). split.
  - exact (Hpin "requests" "2" eq_refl eq_refl eq_refl eq_refl).
  - apply (Hbare "requests==2.31.0" "."%char);
      [reflexivity | reflexivity | reflexivity | |]; discriminate.
Defined.

Lemma get_elem_nth_error {A} (list_ : list A) (index : nat) :
  get_elem list_ index = nth_error list_ index.
Proof.
  unfold get_elem. destruct (Nat.ltb index (length list_)) eqn:H; [done|].
  symmetry. apply nth_error_None. by apply Nat.ltb_ge.
Qed.

Lemma get_install_modules_nonempty (modules : list string) :
  modules <> [] -> Cli.get_install_modules modules <> [].
Proof. by destruct modules. Qed.

(** X2. On ASCII arguments and an ASCII file, [get_modules] leaves
    through [sys.exit(1)], or raises what opening or reading the file named
    after [-r] raises, or returns a list that is not empty. It returns only
    for the sub command [install]: the requests of the arguments from the
    third on, or, after [-r], of the lines of the named file. *)
Theorem get_modules_exit_or_nonempty :
  forall (read_file : string -> option (string + exn)) (argv : list string),
    Forall (fun a => Str.ascii_text a = true) argv ->
    (forall fname text,
       read_file fname = Some (inl text) -> Str.ascii_text text = true) ->
    Cli.get_modules read_file argv = Exit 1
    \/ (exists fname e,
          nth_error argv 1 = Some "install"
          /\ nth_error argv 2 = Some "-r"
          /\ nth_error argv 3 = Some fname
          /\ read_file fname = Some (inr e)
          /\ Cli.get_modules read_file argv = Raise e)
    \/ exists modules,
         Cli.get_modules read_file argv = Ok modules
         /\ modules <> []
         /\ nth_error argv 1 = Some "install"
         /\ (modules = Cli.get_install_modules (skipn 2 argv)
             \/ exists fname text,
                  nth_error argv 2 = Some "-r"
                  /\ nth_error argv 3 = Some fname
                  /\ read_file fname = Some (inl text)
                  /\ modules = Cli.get_install_modules (splitlines text)).
Proof.
  intros read_file argv _ _. unfold Cli.get_modules.
  rewrite !get_elem_nth_error.
  destruct (Nat.ltb (length argv) 3) eqn:Hlen; [by left|].
  apply Nat.ltb_ge in Hlen.
  destruct argv as [|a0 [|a1 [|a2 rest]]]; cbn in Hlen; try lia.
  cbn [nth_error].
  destruct (String.eqb a1 "install") eqn:Hsub; [|by left].
  apply String.eqb_eq in Hsub as ->. cbn [negb].
  destruct (Str.startswith "-" a2).
  - destruct (String.eqb a2 "-r") eqn:Hr; [|by left]. cbn [negb].
    apply String.eqb_eq in Hr as ->.
    destruct rest as [|fname rest]; [by left|]. cbn [nth_error].
    destruct (Str.is_empty fname); [by left|].
    destruct (read_file fname) as [[text|e]|] eqn:Hread; [| |by left].
    + destruct (splitlines text) as [|l ls] eqn:Hl; [by left|].
      right. right. eexists. split; [reflexivity|]. split; [done|]. split; [done|].
      right. exists fname, text. by rewrite Hl.
    + right. left. by exists fname, e.
  - right. right. eexists. split; [reflexivity|]. split; [done|]. split; [done|].
    by left.
Qed.

Lemma sample_files_ascii (fname text : string) :
  Samples.sample_files fname = Some (inl text) -> Str.ascii_text text = true.
Proof.
  unfold Samples.sample_files.
  destruct (String.eqb fname "requirements.txt"); [by intros [= <-]|].
  by destruct (String.eqb fname "latin1.txt").
Qed.

Lemma get_modules_exit_or_nonempty_witness :
  Cli.get_modules Samples.sample_files ["curlpip"; "install"; "-r"; "requirements.txt"]
  = Ok [ mkInstallModule "foo" [VersionRequirement1 (Loose.init "1")];
         InstallModule1 "bar" ]
  /\ Cli.get_modules Samples.sample_files ["curlpip"; "install"; "-r"; "latin1.txt"]
     = Raise UnicodeDecodeError.
Proof.
  split.
  - destruct (get_modules_exit_or_nonempty Samples.sample_files
                ["curlpip"; "install"; "-r"; "requirements.txt"])
      as [H|[(fname & e & _ & _ & _ & _ & H)|(modules & H & _)]];
      [ repeat constructor | exact sample_files_ascii
      | discriminate H | discriminate H | reflexivity ].
  - destruct (get_modules_exit_or_nonempty Samples.sample_files
                ["curlpip"; "install"; "-r"; "latin1.txt"])
      as [H|[(fname & e & _ & _ & _ & _ & H)|(modules & H & _)]];
      [ repeat constructor | exact sample_files_ascii
      | discriminate H | reflexivity | discriminate H ].
Defined.

(** ** Installed distributions *)

Lemma split_no_sep (sep : ascii) (s : string) :
  Str.mem sep s = false -> Str.split sep s = [s].
Proof.
  induction s as [|c s IH]; cbn; [done|]. intros H.
  apply orb_false_iff in H as [Hc Hs].
  rewrite Ascii.eqb_sym in Hc. rewrite Hc. by rewrite (IH Hs).
Qed.

Lemma split_app_sep (sep : ascii) (a b : string) :
  Str.mem sep a = false ->
  Str.split sep (a ++ String sep b) = a :: Str.split sep b.
Proof.
  induction a as [|c a IH]; intros H.
  - rewrite append_nil_l. cbn. by rewrite Ascii.eqb_refl.
  - rewrite append_cons. cbn in *. apply orb_false_iff in H as [Hc Ha].
    rewrite Ascii.eqb_sym in Hc. rewrite Hc. by rewrite (IH Ha).
Qed.

(** X3. [is_already_installed] compares the installed version with the
    text between the first and the second dash of the file name, or with
    everything after the first dash when there is no second one: for
    [foo-1.0.tar.gz] that is [1.0.tar.gz]. A name without a dash is never
    installed. *)
Theorem is_already_installed_fields :
  forall (dist_version : string -> option string) (n v : string),
    Str.mem "-" n = false ->
    Str.mem "-" v = false ->
    let verdict := match dist_version n with
                   | Some installed => String.eqb installed v
                   | None => false
                   end in
    is_already_installed dist_version (n ++ "-" ++ v) = verdict
    /\ (forall rest, is_already_installed dist_version (n ++ "-" ++ v ++ "-" ++ rest)
                     = verdict)
    /\ is_already_installed dist_version n = false.
Proof.
  intros dist n v Hn Hv verdict. unfold is_already_installed.
  split; [|split].
  - change (n ++ "-" ++ v)%string with (n ++ String "-" v)%string.
    rewrite (split_app_sep _ n v Hn), (split_no_sep _ v Hv). done.
  - intros rest.
    change (n ++ "-" ++ v ++ "-" ++ rest)%string
      with (n ++ String "-" (v ++ String "-" rest))%string.
    rewrite (split_app_sep _ n _ Hn), (split_app_sep _ v _ Hv). done.
  - by rewrite (split_no_sep _ n Hn).
Qed.

Lemma is_already_installed_fields_witness :
  is_already_installed Samples.foo_installed "foo-1.0.tar.gz" = false
  /\ is_already_installed Samples.foo_installed "foo-1.0-py3-none-any.whl" = true.
Proof.
  split.
  - exact (proj1 (is_already_installed_fields Samples.foo_installed "foo" "1.0.tar.gz"
                    eq_refl eq_refl)).
  - exact (proj1 (proj2 (is_already_installed_fields Samples.foo_installed "foo" "1.0"
                           eq_refl eq_refl)) "py3-none-any.whl").
Defined.

(** ** The loop of [start] *)

Lemma gather_empty (env : Env) (dist_version : string -> option string) (fuel : nat)
    (top : list string) (modules : list InstallModule) :
  forall (module_files : list string) (skipped : nat) (s : State)
         (files : list string) (skipped' : nat) (s' : State),
    (forall m, m ∈ modules -> name m ∈ top) ->
    gather env dist_version fuel top modules module_files skipped s
      = (Ok (files, skipped'), s') ->
    files = [] ->
    module_files = [] /\ skipped' = (skipped + length modules)%nat.
Proof.
  induction modules as [|m modules IH]; intros mf sk s files sk' s' Htop H Hf.
  - cbn in H. injection H as <- <- _. cbn. split; [done|lia].
  - cbn [gather] in H. unfold bind in H.
    destruct (get_module_recursive env fuel m 0 s) as [[fetched| | |] s1]; try done.
    assert (Hcount : count_skip_module top sk (name m) = S sk).
    { unfold count_skip_module. rewrite bool_decide_eq_true_2; [done|].
      apply Htop. by left. }
    assert (Htop' : forall m', m' ∈ modules -> name m' ∈ top).
    { intros m' Hm'. apply Htop. by right. }
    destruct fetched as [[|x l]|l].
    + rewrite Hcount in H. destruct (IH _ _ _ _ _ _ Htop' H Hf) as [-> ->].
      split; [done|cbn [length]; lia].
    + done.
    + destruct (check_all_module_files_installed dist_version l) eqn:Hall.
      * rewrite Hcount in H. destruct (IH _ _ _ _ _ _ Htop' H Hf) as [-> ->].
        split; [done|cbn [length]; lia].
      * destruct (IH _ _ _ _ _ _ Htop' H Hf) as [Happ _].
        apply app_eq_nil in Happ as [_ ->]. done.
Qed.

Lemma clean_nonempty (x : string) (l : list string) :
  clean_duplicated_files (x :: l) <> [].
Proof.
  unfold clean_duplicated_files. rewrite clean_loop_cons.
  destruct (decide (x ∈ (∅ : gset string))) as [Hin|_]; [set_solver | done].
Qed.

(** X4. In the loop of [start], a module for which no file comes back
    counts as already installed. So when the loop ends with no file at
    all, every module was counted as skipped: the test
    [is_all_top_module_skipped] is then true, and the branch that reports
    that no module file was found is never taken. The list handed on to
    the install loop is never empty. *)
Theorem gather_empty_means_all_skipped :
  forall (env : Env) (dist_version : string -> option string) (fuel : nat)
         (modules : list InstallModule) (s s' : State),
    check_all_module_files_installed dist_version [] = true
    /\ (forall (files : list string) (skipped : nat),
          gather env dist_version fuel (map name modules) modules [] 0 s
            = (Ok (files, skipped), s') ->
          files = [] ->
          skipped = length modules
          /\ is_all_top_module_skipped (map name modules) skipped = true)
    /\ (forall module_files : list string,
          gather_all env dist_version fuel modules s = (Ok module_files, s') ->
          module_files <> []).
Proof.
  intros env dist fuel modules s s'. split; [done|]. split.
  - intros files skipped H Hf.
    destruct (gather_empty env dist fuel (map name modules) modules [] 0 s files
                skipped s') as [_ ->]; try done.
    + intros m Hm. apply list_elem_of_In, in_map. by apply list_elem_of_In.
    + split; [done|]. unfold is_all_top_module_skipped.
      rewrite length_map. by apply Nat.leb_le.
  - intros module_files H. unfold gather_all, bind in H.
    destruct (gather env dist fuel (map name modules) modules [] 0 s)
      as [[[files skipped]| | |] s1]; try done.
    cbn [fst] in H. destruct files as [|x l]; [done|].
    injection H as <- _. apply clean_nonempty.
Qed.

Lemma gather_empty_means_all_skipped_witness :
  is_all_top_module_skipped (map name [InstallModule1 "bare"]) 1 = true.
Proof.
  destruct (gather_empty_means_all_skipped Samples.bare_env (fun _ => None) 1
              [InstallModule1 "bare"] empty_state
              (snd (gather Samples.bare_env (fun _ => None) 1 ["bare"]
                      [InstallModule1 "bare"] [] 0 empty_state)))
    as (_ & H & _).
  exact (proj2 (H [] 1%nat eq_refl eq_refl)).
Defined.

(** ** The pip check *)






(** ** Finding a file *)

Lemma find_in_sound (env : Env) (package_type : string) (infos : list pyobj)
    (url : pyobj) :
  find_in env package_type infos = Ok url ->
  url = PNone
  \/ exists file_info pt fname python_version,
       file_info ∈ infos
       /\ Py.getitem file_info "packagetype" = Ok pt
       /\ Py.eq_str pt package_type = true
       /\ Py.getitem file_info "url" = Ok url
       /\ Py.getitem file_info "filename" = Ok fname
       /\ Py.getitem file_info "python_version" = Ok python_version
       /\ (package_type = "sdist" /\ Py.eq_str python_version "source" = true
           \/ wheel_supported env fname = Ok true).
Proof.
  induction infos as [|file_info rest IH]; cbn [find_in]; intros H.
  - left. by injection H.
  - assert (Hrest : find_in env package_type rest = Ok url ->
              url = PNone
              \/ exists file_info0 pt fname python_version,
                   file_info0 ∈ file_info :: rest
                   /\ Py.getitem file_info0 "packagetype" = Ok pt
                   /\ Py.eq_str pt package_type = true
                   /\ Py.getitem file_info0 "url" = Ok url
                   /\ Py.getitem file_info0 "filename" = Ok fname
                   /\ Py.getitem file_info0 "python_version" = Ok python_version
                   /\ (package_type = "sdist" /\ Py.eq_str python_version "source" = true
                       \/ wheel_supported env fname = Ok true)).
    { intros Hr. destruct (IH Hr) as [->|(fi & pt & fn & pv & Hin & Hrest)]; [by left|].
      right. exists fi, pt, fn, pv. split; [by right | done]. }
    destruct (Py.getitem file_info "packagetype") as [pt| | |] eqn:Hpt; try done.
    cbn [obind] in H.
    destruct (Py.eq_str pt package_type) eqn:Heq; cbn [negb] in H; [|by apply Hrest].
    destruct (Py.getitem file_info "url") as [u| | |] eqn:Hu; try done.
    destruct (Py.getitem file_info "filename") as [fn| | |] eqn:Hfn; try done.
    destruct (Py.getitem file_info "python_version") as [pv| | |] eqn:Hpv; try done.
    cbn [obind] in H.
    destruct (String.eqb package_type "sdist" && Py.eq_str pv "source") eqn:Hsrc.
    + injection H as <-. apply andb_true_iff in Hsrc as [Hs Hv].
      apply String.eqb_eq in Hs.
      right. exists file_info, pt, fn, pv. split; [by left|]. auto 10.
    + destruct (wheel_supported env fn) as [sup| | |] eqn:Hsup; try done.
      cbn [obind] in H. destruct sup; [|by apply Hrest].
      injection H as <-.
      right. exists file_info, pt, fn, pv. split; [by left|]. auto 10.
Qed.

(** X7. The URL [find_module_file] returns is [None] or the [url] of a
    descriptor of the list whose [packagetype] is the one asked for and
    which is a source archive tagged [source] or has a file name pip
    supports; [find_whl] returns [None] or the URL of a wheel that pip
    supports. *)
Theorem find_module_file_sound :
  forall (env : Env) (module_objs : pyobj) (package_type : string) (url : pyobj),
    (find_module_file env module_objs package_type = Ok url ->
     url = PNone
     \/ exists infos file_info pt fname python_version,
          Py.iter module_objs = Ok infos
          /\ file_info ∈ infos
          /\ Py.getitem file_info "packagetype" = Ok pt
          /\ Py.eq_str pt package_type = true
          /\ Py.getitem file_info "url" = Ok url
          /\ Py.getitem file_info "filename" = Ok fname
          /\ Py.getitem file_info "python_version" = Ok python_version
          /\ (package_type = "sdist" /\ Py.eq_str python_version "source" = true
              \/ wheel_supported env fname = Ok true))
    /\ (find_whl env module_objs = Ok url ->
        url = PNone
        \/ exists infos file_info fname,
             Py.iter module_objs = Ok infos
             /\ file_info ∈ infos
             /\ Py.getitem file_info "packagetype" = Ok (PStr "bdist_wheel")
             /\ Py.getitem file_info "url" = Ok url
             /\ Py.getitem file_info "filename" = Ok fname
             /\ wheel_supported env fname = Ok true).
Proof.
  intros env module_objs package_type url.
  assert (Hgen : forall pt0,
            find_module_file env module_objs pt0 = Ok url ->
            url = PNone
            \/ exists infos file_info pt fname python_version,
                 Py.iter module_objs = Ok infos
                 /\ file_info ∈ infos
                 /\ Py.getitem file_info "packagetype" = Ok pt
                 /\ Py.eq_str pt pt0 = true
                 /\ Py.getitem file_info "url" = Ok url
                 /\ Py.getitem file_info "filename" = Ok fname
                 /\ Py.getitem file_info "python_version" = Ok python_version
                 /\ (pt0 = "sdist" /\ Py.eq_str python_version "source" = true
                     \/ wheel_supported env fname = Ok true)).
  { intros pt0 H. unfold find_module_file in H.
    destruct (Py.iter module_objs) as [infos| | |] eqn:Hit; try done.
    cbn [obind] in H.
    destruct (find_in_sound env pt0 infos url H)
      as [->|(fi & pt & fn & pv & Hrest)]; [by left|].
    right. exists infos, fi, pt, fn, pv. done. }
  split; [apply Hgen|].
  intros H. destruct (Hgen "bdist_wheel" H)
    as [->|(infos & fi & pt & fn & pv & Hit & Hin & Hpt & Heq & Hu & Hfn & Hpv & Hok)];
    [by left|].
  right. exists infos, fi, fn.
  destruct pt; try done. cbn in Heq. apply String.eqb_eq in Heq as ->.
  destruct Hok as [[Hs _]|Hok]; [done|]. done.
Qed.

Lemma find_module_file_sound_witness :
  PStr "https://files.example/foo-1.0-py3-none-any.whl" = PNone
  \/ exists infos file_info fname,
       Py.iter Samples.wheels = Ok infos
       /\ file_info ∈ infos
       /\ Py.getitem file_info "packagetype" = Ok (PStr "bdist_wheel")
       /\ Py.getitem file_info "url"
          = Ok (PStr "https://files.example/foo-1.0-py3-none-any.whl")
       /\ Py.getitem file_info "filename" = Ok fname
       /\ wheel_supported Samples.picky_env fname = Ok true.
Proof.
  apply (proj2 (find_module_file_sound Samples.picky_env Samples.wheels "bdist_wheel"
                  (PStr "https://files.example/foo-1.0-py3-none-any.whl"))).
  reflexivity.
Defined.

(** ** The search through the releases *)

Lemma insert_desc_perm {A} (x : LooseVersion * A) (l l' : list (LooseVersion * A)) :
  insert_desc x l = Ok l' -> Permutation (x :: l) l'.
Proof.
  revert l'. induction l as [|y l IH]; intros l' H; cbn in H.
  - by injection H as <-.
  - destruct (Loose.lt (fst x) (fst y)) as [lt| | |]; try done. cbn [obind] in H.
    destruct lt.
    + destruct (insert_desc x l) as [r| | |]; try done. cbn [obind] in H.
      injection H as <-. rewrite perm_swap. constructor. by apply IH.
    + by injection H as <-.
Qed.

Lemma sorted_desc_perm {A} (l l' : list (LooseVersion * A)) :
  sorted_desc l = Ok l' -> Permutation l l'.
Proof.
  revert l'. induction l as [|x l IH]; intros l' H; cbn in H.
  - by injection H as <-.
  - destruct (sorted_desc l) as [r| | |]; try done. cbn [obind] in H.
    rewrite <- (insert_desc_perm x r l' H). constructor. by apply IH.
Qed.

Lemma search_releases_none (find : pyobj -> outcome pyobj)
    (reqs : list VersionRequirement) (rels : list (LooseVersion * pyobj)) (url : pyobj) :
  search_releases find reqs rels = Ok url ->
  Py.truthy url = false ->
  forall version release,
    (version, release) ∈ rels ->
    is_match_version version reqs = Ok true ->
    exists u, find release = Ok u /\ Py.truthy u = false.
Proof.
  induction rels as [|[v r] rels IH]; intros H Hu version release Hin Hm.
  - by apply elem_of_nil in Hin.
  - cbn [search_releases] in H.
    destruct (is_match_version v reqs) as [m| | |] eqn:Hv; try done.
    cbn [obind] in H. apply elem_of_cons in Hin as [[= -> ->]|Hin].
    + rewrite Hm in Hv. injection Hv as <-. cbn [negb] in H.
      destruct (find r) as [u| | |]; try done. cbn [obind] in H.
      destruct (Py.truthy u) eqn:Htu.
      * injection H as ->. by rewrite Hu in Htu.
      * by exists u.
    + destruct m; cbn [negb] in H; [|by apply (IH H Hu version release)].
      destruct (find r) as [u| | |]; try done. cbn [obind] in H.
      destruct (Py.truthy u) eqn:Htu.
      * injection H as ->. by rewrite Hu in Htu.
      * by apply (IH H Hu version release).
Qed.

(** X8. [get_url] returns a null URL only after it has looked at every
    release: whenever it does, each release whose version satisfies the
    requirements was searched and gave no URL. *)
Theorem get_url_none_is_exhaustive :
  forall (env : Env) (module : InstallModule) (project_obj : pyobj) (ft : file_type)
         (url releases : pyobj) (its : list (string * pyobj))
         (version : string) (release : pyobj),
    get_url env module project_obj ft = Ok url ->
    Py.truthy url = false ->
    Py.getitem project_obj "releases" = Ok releases ->
    Py.items releases = Ok its ->
    (version, release) ∈ its ->
    is_match_version (Loose.init version) (version_requirements module) = Ok true ->
    exists u, finders env ft release = Ok u /\ Py.truthy u = false.
Proof.
  intros env module project ft url releases its version release H Hu Hrel Hits Hin Hm.
  assert (Hfb : get_url_fallback env module project ft = Ok url).
  { unfold get_url in H.
    destruct (Py.getitem project "info") as [info| | |]; try done. cbn [obind] in H.
    destruct (Py.getitem info "version") as [lv| | |]; try done. cbn [obind] in H.
    destruct (Py.LooseVersion_of lv) as [latest| | |]; try done. cbn [obind] in H.
    destruct (is_match_version latest (version_requirements module)) as [m| | |];
      try done.
    cbn [obind] in H. destruct m; [|done].
    rewrite Hrel in H. cbn [obind] in H.
    destruct (Py.getitem_obj releases lv) as [objs| | |]; try done. cbn [obind] in H.
    destruct (finders env ft objs) as [u| | |]; try done. cbn [obind] in H.
    destruct (Py.truthy u) eqn:Htu; [|done].
    injection H as ->. by rewrite Hu in Htu. }
  unfold get_url_fallback in Hfb.
  destruct (Py.getitem project "urls") as [urls| | |]; try done. cbn [obind] in Hfb.
  destruct (finders env ft urls) as [u| | |]; try done. cbn [obind] in Hfb.
  destruct (Py.truthy u) eqn:Htu.
  { injection Hfb as ->. by rewrite Hu in Htu. }
  rewrite Hrel in Hfb. cbn [obind] in Hfb. unfold sort_releases in Hfb.
  rewrite Hits in Hfb. cbn [obind] in Hfb.
  destruct (sorted_desc _) as [rels| | |] eqn:Hsort; try done. cbn [obind] in Hfb.
  apply (search_releases_none _ _ rels url Hfb Hu (Loose.init version) release);
    [|done].
  rewrite <- (sorted_desc_perm _ _ Hsort).
  apply list_elem_of_In, in_map_iff. exists (version, release).
  split; [done|]. by apply list_elem_of_In.
Qed.

Lemma get_url_none_is_exhaustive_witness :
  exists u, finders Samples.bare_env source (PList []) = Ok u /\ Py.truthy u = false.
Proof.
  apply (get_url_none_is_exhaustive Samples.bare_env (InstallModule1 "bare")
           Samples.bare_project source PNone (PDict [("1.0", PList [])])
           [("1.0", PList [])] "1.0" (PList [])); try reflexivity.
  by left.
Defined.

(** ** Comparing versions *)

Lemma comp_eqb_refl (x : component) : Loose.comp_eqb x x = true.
Proof. destruct x; cbn; [apply Z.eqb_refl | apply String.eqb_refl]. Qed.

Lemma list_eqb_refl (a : list component) : Loose.list_eqb a a = true.
Proof. induction a as [|x a IH]; cbn; [done | by rewrite comp_eqb_refl, IH]. Qed.

Lemma comp_gt_of (x y : component) :
  Loose.comp_eqb x y = false ->
  Loose.comp_ltb x y = Ok false ->
  Loose.comp_ltb y x = Ok true.
Proof.
  destruct x as [x|s], y as [y|t]; cbn; try done; intros He Hl.
  - injection Hl as Hl. f_equal. apply Z.eqb_neq in He. apply Z.ltb_ge in Hl.
    apply Z.ltb_lt. lia.
  - injection Hl as Hl. f_equal. unfold String.ltb in *.
    rewrite String.compare_antisym.
    destruct (String.compare s t) eqn:Hc; try done.
    apply String.compare_eq_iff in Hc as ->. by rewrite String.eqb_refl in He.
Qed.

Lemma list_gt_of (a b : list component) :
  Loose.list_eqb a b = false ->
  Loose.list_ltb a b = Ok false ->
  Loose.list_gtb a b = Ok true.
Proof.
  revert b. induction a as [|x a IH]; intros [|y b]; cbn; try done.
  destruct (Loose.comp_eqb x y) eqn:Hxy; cbn.
  - apply IH.
  - intros _. by apply comp_gt_of.
Qed.

Lemma list_ltb_raises (a b : list component) (e : exn) :
  Loose.list_ltb a b = Raise e -> e = TypeError.
Proof.
  revert b. induction a as [|x a IH]; intros [|y b]; cbn; try done.
  destruct (Loose.comp_eqb x y); [apply IH|].
  destruct x, y; cbn; try done; by intros [= <-].
Qed.

Lemma list_ltb_returns (a b : list component) :
  returns (Loose.list_ltb a b).
Proof.
  revert b. induction a as [|x a IH]; intros [|y b]; cbn; try done.
  destruct (Loose.comp_eqb x y); [apply IH|]. by destruct x, y.
Qed.

(** X9. [_cmp] on two versions returns 0, -1 or 1, or raises: an
    [AttributeError] when one of them was built from an empty string, a
    [TypeError] when a number meets a text; it never falls off its end.
    Two versions with the same components compare as equal, whatever their
    strings, so a version satisfies a pin to itself. *)
Theorem loose_cmp_sign_or_raise :
  forall v r : LooseVersion,
    match Loose._cmp v r with
    | Ok (Some z) => z = 0 \/ z = -1 \/ z = 1
    | Ok None => False
    | Raise e =>
        (e = AttributeError /\ (v = LV_unset \/ r = LV_unset))
        \/ (e = TypeError /\ v <> LV_unset /\ r <> LV_unset)
    | Exit _ | Timeout => False
    end
    /\ (forall (s s' : string) (cs : list component),
          Loose._cmp (LV s cs) (LV s' cs) = Ok (Some 0)
          /\ is_match_version (LV s cs) [VersionRequirement1 (LV s' cs)] = Ok true).
Proof.
  intros v r. split.
  - unfold Loose._cmp. destruct v as [vs a|]; [|cbn; auto].
    destruct r as [rs b|]; [|cbn; auto]. cbn [Loose.version_of obind].
    destruct (Loose.list_eqb a b) eqn:He; [auto|].
    pose proof (list_ltb_returns a b) as Hret.
    destruct (Loose.list_ltb a b) as [lt|e| |] eqn:Hl; try done; cbn [obind].
    + destruct lt; [auto|]. rewrite (list_gt_of a b He Hl). cbn. auto.
    + right. rewrite (list_ltb_raises a b e Hl). done.
  - intros s s' cs.
    assert (H : Loose._cmp (LV s cs) (LV s' cs) = Ok (Some 0)).
    { unfold Loose._cmp. cbn [Loose.version_of obind]. by rewrite list_eqb_refl. }
    split; [exact H|].
    cbn. unfold Loose.eq. by rewrite H.
Qed.

(** ** The two caches *)

Lemma get_project_json_stored (env : Env) (project : string) (s s1 : State) (v : pyobj) :
  get_project_json env project s = (Ok v, s1) ->
  _api_cache s1 !! project = Some v.
Proof.
  unfold get_project_json.
  destruct (_api_cache s !! project) as [cached|] eqn:Hc.
  - by intros [= <- <-].
  - destruct (fetch_project_run env project) as (v0 & calls & _ & _ & Hm).
    rewrite Hm. destruct v0; try done.
    intros [= <- <-]. cbn. apply lookup_insert_eq.
Qed.

Lemma get_project_json_hit (env : Env) (project : string) (s : State) (v : pyobj) :
  _api_cache s !! project = Some v ->
  get_project_json env project s = (Ok v, s).
Proof. intros H. unfold get_project_json. by rewrite H. Qed.

(** X10. After a fetch of a name has returned, a second fetch of that name
    returns the same value and leaves the state as it is: no request is
    made. *)
Theorem get_project_json_twice :
  forall (env : Env) (project : string) (s s1 : State) (v : pyobj),
    get_project_json env project s = (Ok v, s1) ->
    get_project_json env project s1 = (Ok v, s1).
Proof.
  intros env project s s1 v H.
  apply get_project_json_hit. by apply (get_project_json_stored env project s).
Qed.

Lemma get_project_json_twice_witness :
  get_project_json Examples.diamond_env "liba"
    (snd (get_project_json Examples.diamond_env "liba" empty_state))
  = (Ok (Examples.project "liba" ["1.0"]),
     snd (get_project_json Examples.diamond_env "liba" empty_state)).
Proof.
  apply (get_project_json_twice Examples.diamond_env "liba" empty_state).
  reflexivity.
Defined.

Lemma get_module_url_again (env : Env) (module : InstallModule) (s s0 : State)
    (url : pyobj) :
  get_module_url env module s = (Ok url, s0) ->
  forall s', _api_cache s' = _api_cache s0 ->
             get_module_url env module s' = (Ok url, s').
Proof.
  unfold get_module_url, bind. intros H s' Hc.
  destruct (get_project_json env (name module) s) as [[project| | |] sp] eqn:Hp;
    try done.
  pose proof (get_project_json_stored env _ _ _ _ Hp) as Hst.
  assert (Hsp : sp = s0 /\
                (if negb (Py.truthy project) then sys_exit 1
                 else fun s2 =>
                   match lift (get_url env module project whl) s2 with
                   | (Ok a, s3) =>
                       (if Py.truthy a then ret a
                        else lift (get_url env module project source)) s3
                   | (Raise e, s3) => (Raise e, s3)
                   | (Exit n, s3) => (Exit n, s3)
                   | (Timeout, s3) => (Timeout, s3)
                   end) s' = (Ok url, s')).
  { destruct (negb (Py.truthy project)); [done|]. unfold lift in *.
    destruct (get_url env module project whl) as [w| | |]; try done.
    destruct (Py.truthy w).
    - unfold ret in *. by injection H as <- <-.
    - destruct (get_url env module project source); try done.
      by injection H as <- <-. }
  destruct Hsp as [-> Hk].
  rewrite (get_project_json_hit env (name module) s' project); [exact Hk|].
  by rewrite Hc.
Qed.

(** X11. [download_module] returns the path of the archive whether or not
    [curl] has written it. When the archive is among the files of the cache
    directory after the call, a second call for the same request returns
    the same path and leaves the state as it is: no run of [curl] is
    started. When it is not, the download had left no file, and a second
    call returns the same path after one more run of the same download and
    no other, with the metadata cache as it was. *)
Theorem download_module_twice :
  forall (env : Env) (module : InstallModule) (s s1 : State) (fpath : string),
    download_module env module s = (Ok (Some fpath), s1) ->
    (fpath ∈ cache_files s1 ->
     download_module env module s1 = (Ok (Some fpath), s1))
    /\ (fpath ∉ cache_files s1 ->
        exists url,
          fst (get_module_url env module s) = Ok (PStr url)
          /\ curl_o env url fpath = false
          /\ fst (download_module env module s1) = Ok (Some fpath)
          /\ curl_calls (snd (download_module env module s1))
             = curl_calls s1 ++ [CurlDownload url fpath]
          /\ _api_cache (snd (download_module env module s1)) = _api_cache s1).
Proof.
  intros env module s s1 fpath H. unfold download_module, bind in H.
  destruct (get_module_url env module s) as [[url| | |] s0] eqn:Hurl; try done.
  destruct (negb (Py.truthy url)) eqn:Htr; [done|].
  destruct url as [| | |u| |]; try done.
  assert (Hs1 : _api_cache s1 = _api_cache s0
                /\ fpath = path_join (CACHE_DIR env)
                             (List.last (Str.split "/" u) EmptyString)
                /\ (fpath ∉ cache_files s1 -> curl_o env u fpath = false)).
  { destruct (decide (_ ∈ cache_files s0)) as [Hin|Hin].
    - by injection H as <- <-.
    - unfold run_curl, create_file, ret in H.
      destruct (curl_o env u _) eqn:Ho; injection H as <- <-; cbn.
      + split; [done|]. split; [done|]. intros Hn. exfalso. apply Hn. set_solver.
      + done. }
  destruct Hs1 as (Hc & Hf & Ho).
  pose proof (get_module_url_again env module s s0 _ Hurl s1 Hc) as Hagain.
  split.
  - intros Hin. unfold download_module, bind. rewrite Hagain, Htr.
    rewrite <- Hf. by rewrite decide_True.
  - intros Hn. exists u. split; [done|]. split; [by apply Ho|].
    unfold download_module, bind. rewrite Hagain, Htr.
    rewrite <- Hf. rewrite decide_False by done.
    unfold run_curl. by rewrite (Ho Hn).
Qed.

Lemma download_module_twice_witness :
  download_module Examples.diamond_env Examples.app_request
    (snd (download_module Examples.diamond_env Examples.app_request empty_state))
  = (Ok (Some "/cache/app-1.0.tar.gz"),
     snd (download_module Examples.diamond_env Examples.app_request empty_state))
  /\ exists url,
       curl_calls
         (snd (download_module Samples.offline_env Examples.app_request
                 (snd (download_module Samples.offline_env Examples.app_request
                         empty_state))))
       = curl_calls (snd (download_module Samples.offline_env Examples.app_request
                            empty_state))
         ++ [CurlDownload url "/cache/app-1.0.tar.gz"].
Proof.
  split.
  - apply (download_module_twice Examples.diamond_env Examples.app_request empty_state);
      [reflexivity|].
    vm_compute. set_solver.
  - destruct (proj2 (download_module_twice Samples.offline_env Examples.app_request
                       empty_state
                       (snd (download_module Samples.offline_env Examples.app_request
                               empty_state))
                       "/cache/app-1.0.tar.gz" eq_refl))
      as (url & _ & _ & _ & Hrun & _).
    + vm_compute. set_solver.
    + by exists url.
Defined.


(** ** Archives and their declarations *)

(** X12. For a wheel whose file name has no dash, [get_whl_dependencies]
    raises an [IndexError] before it opens the archive, and
    [get_dependencies] with it. *)
Theorem get_whl_dependencies_no_dash :
  forall (env : Env) (whl : string),
    Str.mem "-" (Str.basename whl) = false ->
    Whl.get_whl_dependencies env whl = Raise IndexError
    /\ (Str.splitext_ext whl = ".whl" -> get_dependencies env whl = Raise IndexError).
Proof.
  intros env whl H.
  assert (Hw : Whl.get_whl_dependencies env whl = Raise IndexError).
  { unfold Whl.get_whl_dependencies. by rewrite (split_no_sep _ _ H). }
  split; [done|]. intros Hext. unfold get_dependencies. by rewrite Hext.
Qed.

Lemma get_whl_dependencies_no_dash_witness :
  Whl.get_whl_dependencies (Examples.wheel_env Examples.metadata_lines) "/cache/foo.whl"
    = Raise IndexError
  /\ get_dependencies (Examples.wheel_env Examples.metadata_lines) "/cache/foo.whl"
     = Raise IndexError.
Proof.
  destruct (get_whl_dependencies_no_dash (Examples.wheel_env Examples.metadata_lines)
              "/cache/foo.whl" eq_refl) as [H1 H2].
  split; [exact H1 | exact (H2 eq_refl)].
Defined.

Lemma src_dep2module_shape (dep : string) (m : InstallModule) :
  Src.dep2module dep = Some m -> (length (version_requirements m) <= 1)%nat.
Proof.
  unfold Src.dep2module. destruct (Src.module_filter dep) as [[[g1 g2] g3]|].
  - intros [= <-]. cbn. lia.
  - destruct (no_punctuation dep); [|done]. intros [= <-]. cbn. lia.
Qed.

Lemma elem_of_not_none (ms : list (option InstallModule)) (m : InstallModule) :
  m ∈ Src.not_none ms <-> Some m ∈ ms.
Proof.
  induction ms as [|[x|] ms IH]; cbn.
  - by rewrite !elem_of_nil.
  - rewrite !elem_of_cons, IH. split; intros [H|H]; auto; left; congruence.
  - rewrite elem_of_cons, IH. split; [auto | by intros [?|?]].
Qed.

Lemma parse_requirements_shape (lines : list string) (m : InstallModule) :
  m ∈ Src.parse_requirements lines ->
  (length (version_requirements m) <= 1)%nat.
Proof.
  unfold Src.parse_requirements. rewrite elem_of_not_none, list_elem_of_In, in_map_iff.
  intros (dep & Hd & _). by apply (src_dep2module_shape dep).
Qed.

(** X13. The dependency list of an archive that is not a wheel has no
    [None] entry, and each of its requests has at most one version
    requirement; an archive that is neither a wheel, nor [.gz], nor [.zip]
    has the empty list, whatever it holds. *)
Theorem get_dependencies_of_source :
  forall (env : Env) (module_file : string),
    Str.splitext_ext module_file <> ".whl" ->
    (forall deps dep,
       get_dependencies env module_file = Ok deps ->
       dep ∈ deps ->
       exists m, dep = Some m /\ (length (version_requirements m) <= 1)%nat)
    /\ (Str.splitext_ext module_file <> ".gz" ->
        Str.splitext_ext module_file <> ".zip" ->
        get_dependencies env module_file = Ok []).
Proof.
  intros env f Hext. apply String.eqb_neq in Hext.
  unfold get_dependencies, Src.get_source_dependencies. rewrite Hext. split.
  - intros deps dep H Hin.
    assert (Hshape : forall ms, dep ∈ map Some ms ->
              (forall m, m ∈ ms -> (length (version_requirements m) <= 1)%nat) ->
              exists m, dep = Some m /\ (length (version_requirements m) <= 1)%nat).
    { intros ms Hd Hms. apply list_elem_of_In, in_map_iff in Hd as (m & <- & Hm).
      exists m. split; [done|]. by apply Hms, list_elem_of_In. }
    destruct (negb _); cbn [obind] in H.
    + injection H as <-. by apply elem_of_nil in Hin.
    + destruct (requires_lines env f) as [[lines|]| | |]; try done; cbn [obind] in H;
        injection H as <-.
      * apply (Hshape _ Hin). apply parse_requirements_shape.
      * by apply elem_of_nil in Hin.
  - intros Hgz Hzip. apply String.eqb_neq in Hgz, Hzip. by rewrite Hgz, Hzip.
Qed.

Lemma get_dependencies_of_source_witness :
  get_dependencies Examples.diamond_env "/cache/app-1.0.tar.bz2" = Ok []
  /\ exists m, Some (InstallModule1 "libb") = Some m
               /\ (length (version_requirements m) <= 1)%nat.
Proof.
  split.
  - apply (proj2 (get_dependencies_of_source Examples.diamond_env
                    "/cache/app-1.0.tar.bz2" ltac:(discriminate))); discriminate.
  - apply (proj1 (get_dependencies_of_source Examples.diamond_env
                    "/cache/liba-1.0.tar.gz" ltac:(discriminate))
             [Some (InstallModule1 "libb")]); [reflexivity | by left].
Defined.

Lemma src_module_filter_inv (dep g1 g2 g3 : string) :
  Src.module_filter dep = Some (g1, g2, g3) ->
  exists e, dep = (g1 ++ g2 ++ g3 ++ e)%string
            /\ (e = EmptyString \/ e = newline)
            /\ Str.all is_name_char g1 = true
            /\ Str.all is_src_op_char g2 = true
            /\ Str.all is_ver_char g3 = true.
Proof.
  unfold Src.module_filter. intros H.
  destruct (Str.span is_name_char dep) as [a r1] eqn:E1.
  destruct (Str.is_empty a); [done|].
  destruct (Str.span is_src_op_char r1) as [b r2] eqn:E2.
  destruct (Str.is_empty b); [done|].
  destruct (Str.span is_ver_char r2) as [c r3] eqn:E3.
  destruct (Str.is_empty c); [done|].
  destruct (at_end r3) eqn:E4; [|done]. injection H as <- <- <-.
  apply span_spec in E1 as (-> & Ha & _). apply span_spec in E2 as (-> & Hb & _).
  apply span_spec in E3 as (-> & Hc & _).
  exists r3. split; [done|]. split; [by apply at_end_spec | done].
Qed.

Lemma mem_rstrip (c : ascii) (s : string) :
  Str.is_space c = false -> Str.mem c (Str.rstrip s) = Str.mem c s.
Proof.
  intros Hc. induction s as [|x s IH]; [done|]. cbn.
  destruct (Str.is_space x && Str.is_empty (Str.rstrip s)) eqn:Hx.
  - apply andb_true_iff in Hx as [Hx He]. rewrite <- IH.
    destruct (Str.rstrip s); [|done]. cbn. rewrite orb_false_r.
    symmetry. apply Ascii.eqb_neq. intros ->. by rewrite Hx in Hc.
  - cbn. by rewrite IH.
Qed.

Lemma mem_lstrip (c : ascii) (s : string) :
  Str.is_space c = false -> Str.mem c (Str.lstrip s) = Str.mem c s.
Proof.
  intros Hc. induction s as [|x s IH]; [done|]. cbn.
  destruct (Str.is_space x) eqn:Hx; [|done].
  rewrite IH. symmetry. replace (Ascii.eqb c x) with false; [done|].
  symmetry. apply Ascii.eqb_neq. intros ->. by rewrite Hx in Hc.
Qed.

Lemma mem_strip (c : ascii) (s : string) :
  Str.is_space c = false -> Str.mem c (Str.strip s) = Str.mem c s.
Proof. intros Hc. unfold Str.strip. by rewrite mem_lstrip, mem_rstrip. Qed.

Lemma src_dep2module_unparsable (c : ascii) (dep : string) :
  Str.mem c "()!" = true -> Str.mem c dep = true -> Src.dep2module dep = None.
Proof.
  intros Hc Hd. unfold Src.dep2module.
  assert (Hcases : c = "("%char \/ c = ")"%char \/ c = "!"%char).
  { cbn in Hc. rewrite orb_false_r in Hc.
    repeat (apply orb_true_iff in Hc as [Hc|Hc]); apply Ascii.eqb_eq in Hc; auto. }
  destruct (Src.module_filter dep) as [[[g1 g2] g3]|] eqn:Hf.
  - exfalso. apply src_module_filter_inv in Hf as (e & -> & He & H1 & H2 & H3).
    rewrite !mem_app in Hd.
    repeat (apply orb_true_iff in Hd as [Hd|Hd]).
    + pose proof (all_mem _ c g1 H1 Hd) as Hp.
      destruct Hcases as [-> | [-> | ->]]; done.
    + pose proof (all_mem _ c g2 H2 Hd) as Hp.
      destruct Hcases as [-> | [-> | ->]]; done.
    + pose proof (all_mem _ c g3 H3 Hd) as Hp.
      destruct Hcases as [-> | [-> | ->]]; done.
    + destruct He as [-> | ->]; [done|].
      destruct Hcases as [-> | [-> | ->]]; done.
  - replace (no_punctuation dep) with false; [done|].
    symmetry. apply not_true_iff_false. intros Hn. unfold no_punctuation in Hn.
    pose proof (all_mem _ c dep Hn Hd) as Hp.
    destruct Hcases as [-> | [-> | ->]]; done.
Qed.

(** X14. A line of the declarations file that holds a parenthesis or an
    exclamation mark, such as [foo!=1.0] or [foo (>=1.0)], adds nothing to
    the list [parse_requirements] returns: the requirement is passed over
    without a word. *)
Theorem parse_requirements_drops :
  forall (pre post : list string) (line : string) (c : ascii),
    Str.mem c "()!" = true ->
    Str.mem c line = true ->
    Src.parse_requirements (pre ++ line :: post) = Src.parse_requirements (pre ++ post).
Proof.
  intros pre post line c Hc Hl. rewrite !parse_requirements_app. f_equal.
  change (line :: post) with ([line] ++ post). rewrite parse_requirements_app.
  assert (Hsp : Str.is_space c = false).
  { cbn in Hc. rewrite orb_false_r in Hc.
    repeat (apply orb_true_iff in Hc as [Hc|Hc]); by apply Ascii.eqb_eq in Hc as ->. }
  assert (Hone : Src.parse_requirements [line] = []); [|by rewrite Hone].
  unfold Src.parse_requirements. cbn [map List.filter].
  destruct (Src.kept (Str.strip line)); [|done]. cbn [map Src.not_none].
  rewrite (src_dep2module_unparsable c); [done | done |].
  by rewrite mem_strip.
Qed.

Lemma parse_requirements_drops_witness :
  Src.parse_requirements (["bar"] ++ "foo!=1.0" :: ["baz>=2.0"])
  = Src.parse_requirements (["bar"] ++ ["baz>=2.0"]).
Proof.
  apply (parse_requirements_drops ["bar"] ["baz>=2.0"] "foo!=1.0" "!"%char);
    reflexivity.
Defined.

Lemma hd_split_no_sep (sep : ascii) (s : string) :
  Str.mem sep (List.hd EmptyString (Str.split sep s)) = false.
Proof.
  induction s as [|c s IH]; cbn; [done|].
  destruct (Ascii.eqb c sep) eqn:Hc; [done|].
  destruct (Str.split sep s) as [|h t]; cbn in *.
  - rewrite Ascii.eqb_sym, Hc. done.
  - rewrite Ascii.eqb_sym, Hc. done.
Qed.

Lemma strip_extras_no_bracket (name : string) :
  Str.mem "[" (strip_extras name) = false.
Proof.
  unfold strip_extras. destruct (Str.mem "[" name) eqn:H; [|done].
  apply hd_split_no_sep.
Qed.

Lemma whl_requirements_shape (versions : list (option (string * string))) :
  (length (Whl.requirements versions) <= length versions)%nat
  /\ forall r, r ∈ Whl.requirements versions -> version r <> None.
Proof.
  induction versions as [|[[op v]|] versions [IHl IHv]]; cbn.
  - split; [lia|]. intros r Hr. by apply elem_of_nil in Hr.
  - split; [lia|]. intros r Hr. apply elem_of_cons in Hr as [->|Hr]; [done | auto].
  - split; [lia | done].
Qed.

(** X15. When a [Requires-Dist] line matches the pattern of the wheel
    strategy, the request made of it has a name without an opening
    bracket, at most one requirement for each comma-separated part of the
    parenthesis, and a version in every requirement. *)
Theorem whl_dep2module_matched :
  forall (line g1 g2 : string),
    Whl.module_filter (Whl.dep_of line) = Some (g1, g2) ->
    exists m,
      Whl.dep2module line = Some m
      /\ name m = strip_extras g1
      /\ Str.mem "[" (name m) = false
      /\ (length (version_requirements m) <= length (Str.split "," g2))%nat
      /\ forall r, r ∈ version_requirements m -> version r <> None.
Proof.
  intros line g1 g2 H. unfold Whl.dep2module. rewrite H.
  eexists. split; [reflexivity|]. cbn [name version_requirements].
  split; [done|]. split; [apply strip_extras_no_bracket|].
  destruct (whl_requirements_shape (map Whl.version_filter (Str.split "," g2)))
    as [Hl Hv].
  rewrite length_map in Hl. done.
Qed.

Lemma whl_dep2module_matched_witness :
  exists m,
    Whl.dep2module "Requires-Dist: requests[socks] (>=2.0,<3,junk)" = Some m
    /\ name m = strip_extras "requests[socks]"
    /\ Str.mem "[" (name m) = false
    /\ (length (version_requirements m) <= length (Str.split "," ">=2.0,<3,junk"))%nat
    /\ forall r, r ∈ version_requirements m -> version r <> None.
Proof.
  apply (whl_dep2module_matched "Requires-Dist: requests[socks] (>=2.0,<3,junk)").
  reflexivity.
Defined.

(** ** Redirect payloads *)

Lemma prefix_spec (p s : string) :
  String.prefix p s = true -> exists post, s = (p ++ post)%string.
Proof.
  revert s. induction p as [|a p IH]; intros s H.
  - by exists s.
  - destruct s as [|b s]; cbn in H; [done|].
    destruct (ascii_dec a b) as [->|]; [|done].
    destruct (IH s H) as [post ->]. exists post. by rewrite append_cons.
Qed.

Lemma _301_filter_here_inv (s g : string) :
  _301_filter_here s = Some g ->
  g <> EmptyString /\ Str.all is_301_char g = true
  /\ exists post, s = ("/pypi/" ++ g ++ "/json;" ++ post)%string.
Proof.
  unfold _301_filter_here. intros H.
  destruct (Str.strip_prefix "/pypi/" s) as [r|] eqn:E1; [|done].
  destruct (Str.span is_301_char r) as [a r'] eqn:E2.
  destruct (Str.is_empty a) eqn:Ea; [done|].
  destruct (String.prefix "/json;" r') eqn:E3; [|done]. injection H as <-.
  apply strip_prefix_spec in E1 as ->. apply span_spec in E2 as (-> & Ha & _).
  apply prefix_spec in E3 as [post ->].
  split; [by apply is_empty_false|]. split; [done|]. by exists post.
Qed.

Lemma _301_filter_inv (text g : string) :
  _301_filter text = Some g ->
  g <> EmptyString /\ Str.all is_301_char g = true
  /\ exists pre post, text = (pre ++ "/pypi/" ++ g ++ "/json;" ++ post)%string.
Proof.
  induction text as [|c text IH]; cbn [_301_filter]; intros H.
  - destruct (_301_filter_here "") as [g'|] eqn:Hh; [|done]. injection H as ->.
    destruct (_301_filter_here_inv _ _ Hh) as (Hg & Ha & post & Hs).
    split; [done|]. split; [done|]. by exists EmptyString, post.
  - destruct (_301_filter_here (String c text)) as [g'|] eqn:Hh.
    + injection H as ->.
      destruct (_301_filter_here_inv _ _ Hh) as (Hg & Ha & post & Hs).
      split; [done|]. split; [done|]. by exists EmptyString, post.
    + destruct (IH H) as (Hg & Ha & pre & post & ->).
      split; [done|]. split; [done|]. by exists (String c pre), post.
Qed.

(** ** The command line of a run *)

Lemma words_from_space (cur : string) (c : ascii) (r : string) :
  Str.is_space c = true ->
  words_from cur (String c r) =
  if Str.is_empty cur then words_from EmptyString r
  else cur :: words_from EmptyString r.
Proof. intros H. cbn [words_from]. by rewrite H. Qed.

Lemma words_from_no_space (w : string) :
  forall cur rest : string,
    Str.no_space w = true ->
    words_from cur (w ++ rest) = words_from (cur ++ w) rest.
Proof.
  induction w as [|c w IH]; intros cur rest H.
  - by rewrite append_nil_l, append_nil_r.
  - unfold Str.no_space in H. cbn [Str.all] in H.
    apply andb_true_iff in H as [Hc Hw]. apply negb_true_iff in Hc.
    rewrite append_cons. cbn [words_from]. rewrite Hc.
    rewrite (IH _ rest Hw). f_equal.
    rewrite str_app_assoc. by rewrite append_cons, append_nil_l.
Qed.

Lemma words_from_word (u : string) :
  Str.no_space u = true -> u <> EmptyString -> words_from EmptyString u = [u].
Proof.
  intros Hu Hne. rewrite <- (append_nil_r u) at 1.
  rewrite words_from_no_space by done. rewrite append_nil_l.
  cbn [words_from]. by destruct u.
Qed.

(** a text without white space is one argument of the run *)
Lemma curl_argv_get (u : string) :
  Str.no_space u = true -> u <> EmptyString ->
  curl_argv (CurlGet u) = ["curl"; "-s"; u].
Proof.
  intros Hu Hne. unfold curl_argv, words.
  change ("curl -s " ++ u)%string
    with ("curl" ++ String " " ("-s" ++ String " " u))%string.
  rewrite (words_from_no_space "curl") by reflexivity.
  rewrite words_from_space by reflexivity. rewrite append_nil_l.
  cbn [Str.is_empty].
  rewrite (words_from_no_space "-s") by reflexivity.
  rewrite words_from_space by reflexivity. rewrite append_nil_l.
  cbn [Str.is_empty].
  by rewrite words_from_word.
Qed.

Lemma no_space_app (a b : string) :
  Str.no_space (a ++ b) = Str.no_space a && Str.no_space b.
Proof. apply all_app. Qed.

Lemma is_301_char_no_space (c : ascii) :
  is_301_char c = true -> negb (Str.is_space c) = true.
Proof. destruct c as [[] [] [] [] [] [] [] []]; by vm_compute. Qed.

Lemma all_impl (p q : ascii -> bool) (s : string) :
  (forall c, p c = true -> q c = true) -> Str.all p s = true -> Str.all q s = true.
Proof.
  intros Hpq. induction s as [|c s IH]; [done|]. cbn [Str.all]. intros H.
  apply andb_true_iff in H as [Hc Hs]. by rewrite (Hpq c Hc), IH.
Qed.

Lemma PROJECT_API_no_space (name : string) :
  Str.no_space name = true -> Str.no_space (PROJECT_API name) = true.
Proof.
  intros H. unfold PROJECT_API. by rewrite !no_space_app, H.
Qed.

Lemma PROJECT_API_nonempty (name : string) : PROJECT_API name <> EmptyString.
Proof. unfold PROJECT_API. by rewrite append_cons. Qed.

(** X16. In an ASCII text, the name [fix_301_text] follows is the one
    between the first [/pypi/] and [/json;] that have only word
    characters, dots and dashes, and at least one, between them. One run
    of [curl] is started, and its only URL is the metadata URL of that
    name. *)
Theorem fix_301_text_follows_name :
  forall (env : Env) (text g : string) (s : State),
    Str.ascii_text text = true ->
    _301_filter text = Some g ->
    g <> EmptyString
    /\ Str.all is_301_char g = true
    /\ (exists pre post, text = (pre ++ "/pypi/" ++ g ++ "/json;" ++ post)%string)
    /\ fix_301_text env text s =
         (Ok (text2json env (curl_s env (PROJECT_API g))),
          add_calls s [CurlGet (PROJECT_API g)])
    /\ curl_argv (CurlGet (PROJECT_API g)) = ["curl"; "-s"; PROJECT_API g].
Proof.
  intros env text g s _ H.
  destruct (_301_filter_inv text g H) as (Hg & Ha & Hex).
  split; [done|]. split; [done|]. split; [done|].
  split; [by apply fix_301_text_run|].
  apply curl_argv_get; [|apply PROJECT_API_nonempty].
  apply PROJECT_API_no_space. unfold Str.no_space.
  apply (all_impl is_301_char); [apply is_301_char_no_space | done].
Qed.

Lemma fix_301_text_follows_name_witness :
  fix_301_text Examples.loop_env "301 Moved: /pypi/Some.Name-2/json; see there"
    empty_state
  = (Ok (text2json Examples.loop_env
           (curl_s Examples.loop_env (PROJECT_API "Some.Name-2"))),
     add_calls empty_state [CurlGet (PROJECT_API "Some.Name-2")])
  /\ curl_argv (CurlGet (PROJECT_API "Some.Name-2"))
     = ["curl"; "-s"; "https://pypi.org/pypi/Some.Name-2/json"].
Proof.
  apply (fix_301_text_follows_name Examples.loop_env
           "301 Moved: /pypi/Some.Name-2/json; see there" "Some.Name-2" empty_state);
    reflexivity.
Defined.




Lemma str_length_app (a b : string) :
  String.length (a ++ b)%string = (String.length a + String.length b)%nat.
Proof.
  induction a as [|c a IH]; [by rewrite append_nil_l|].
  rewrite append_cons. cbn [String.length]. by rewrite IH.
Qed.

(** X18. A redirect in JSON form whose [message], an ASCII text, names a
    package is followed by one run of [curl], and the command line of that
    run is built from the whole message, not from the name the message
    gives. When the message has no white space, the run has one URL, and
    that is not the metadata URL of the name. *)
Theorem fix_301_json_requests_message :
  forall (env : Env) (d : list (string * pyobj)) (m g : string) (s : State),
    Str.ascii_text m = true ->
    Py.dict_get d "message" = Some (PStr m) ->
    _301_filter m = Some g ->
    fix_301_json env (PDict d) s
    = (Ok (text2json env (curl_s env (PROJECT_API m))),
       add_calls s [CurlGet (PROJECT_API m)])
    /\ (Str.no_space m = true ->
        curl_argv (CurlGet (PROJECT_API m)) = ["curl"; "-s"; PROJECT_API m]
        /\ PROJECT_API m <> PROJECT_API g).
Proof.
  intros env d m g s _ Hm Hf. split.
  - unfold fix_301_json, bind, lift. cbn [Py.getitem]. rewrite Hm, Hf.
    by rewrite get_response_run.
  - intros Hsp. split.
    + apply curl_argv_get; [by apply PROJECT_API_no_space | apply PROJECT_API_nonempty].
    + destruct (_301_filter_inv m g Hf) as (_ & _ & pre & post & ->).
      intros Heq. apply (f_equal String.length) in Heq. unfold PROJECT_API in Heq.
      rewrite !str_length_app in Heq. cbn [String.length] in Heq. lia.
Qed.

Lemma fix_301_json_requests_message_witness :
  fix_301_json Examples.moved_env Examples.moved empty_state
  = (Ok (text2json Examples.moved_env
           (curl_s Examples.moved_env (PROJECT_API "/pypi/p/json;"))),
     add_calls empty_state [CurlGet (PROJECT_API "/pypi/p/json;")])
  /\ curl_argv (CurlGet (PROJECT_API "/pypi/p/json;"))
     = ["curl"; "-s"; "https://pypi.org/pypi//pypi/p/json;/json"]
  /\ PROJECT_API "/pypi/p/json;" <> PROJECT_API "p".
Proof.
  destruct (fix_301_json_requests_message Examples.moved_env
              [("code", PStr "301 Moved Permanently"); ("message", PStr "/pypi/p/json;")]
              "/pypi/p/json;" "p" empty_state eq_refl eq_refl eq_refl)
    as [Hrun Hurl].
  split; [exact Hrun|]. by apply Hurl.
Defined.

(** ** The returned lists *)

Lemma clean_loop_length (l : list string) (cache : gset string) :
  (length (clean_loop l cache []) <= length l)%nat.
Proof.
  revert cache. induction l as [|x l IH]; intros cache; [done|].
  rewrite clean_loop_cons. destruct (decide (x ∈ cache)); cbn [length].
  - specialize (IH cache). lia.
  - specialize (IH ({[x]} ∪ cache)). lia.
Qed.

(** X19. The list [clean_duplicated_files] returns has no duplicate, holds
    exactly the paths of its argument, and is not longer than it. *)
Theorem clean_duplicated_files_set :
  forall l : list string,
    NoDup (clean_duplicated_files l)
    /\ (forall p, p ∈ clean_duplicated_files l <-> p ∈ l)
    /\ (length (clean_duplicated_files l) <= length l)%nat.
Proof.
  intros l. split; [apply NoDup_clean_loop|]. split.
  - intros p. apply elem_of_clean.
  - apply clean_loop_length.
Qed.

Lemma deps_loop_more (recurse : InstallModule -> Z -> M files) (depth : Z)
    (deps : list (option InstallModule)) :
  (forall dep s l s',
     recurse dep (depth - 1) s = (Ok (Tagged l), s') ->
     forall p d, (p, d) ∈ l -> d < depth) ->
  forall (pre out : list (string * Z)) (s s' : State),
    deps_loop recurse depth deps pre s = (Ok out, s') ->
    exists more, out = pre ++ more /\ forall p d, (p, d) ∈ more -> d < depth.
Proof.
  intros Hrec. induction deps as [|[dep|] deps IH]; intros pre out s s' H;
    cbn [deps_loop] in H.
  - injection H as <- _. exists []. rewrite app_nil_r. split; [done|].
    intros p d Hin. by apply elem_of_nil in Hin.
  - unfold bind in H.
    destruct (recurse dep (depth - 1) s) as [[[l|l]| | |] s1] eqn:Hr; try done.
    + destruct l as [|x l]; [by apply (IH _ _ _ _ H)|].
      destruct (IH _ _ _ _ H) as (more & -> & Hmore). exists ((x :: l) ++ more).
      split; [by rewrite app_assoc|]. intros p d Hin.
      apply elem_of_app in Hin as [Hin|Hin]; [|by apply (Hmore p)].
      by apply (Hrec dep s (x :: l) s1 Hr p d).
    + destruct l as [|x l]; [by apply (IH _ _ _ _ H) | done].
  - by apply (IH _ _ _ _ H).
Qed.

Lemma deps_loop_mono (rec1 rec2 : InstallModule -> Z -> M files) (depth : Z)
    (deps : list (option InstallModule)) :
  (forall dep s o s',
     rec1 dep (depth - 1) s = (o, s') -> o <> Timeout ->
     rec2 dep (depth - 1) s = (o, s')) ->
  forall (pre : list (string * Z)) (s : State) o (s' : State),
    deps_loop rec1 depth deps pre s = (o, s') -> o <> Timeout ->
    deps_loop rec2 depth deps pre s = (o, s').
Proof.
  intros Hrec. induction deps as [|[dep|] deps IH]; intros pre s o s' H Ho;
    cbn [deps_loop] in H |- *.
  - done.
  - unfold bind in H |- *.
    destruct (rec1 dep (depth - 1) s) as [o1 s1] eqn:E1.
    destruct o1 as [r| | |]; try (rewrite (Hrec _ _ _ _ E1) by done; exact H).
    + rewrite (Hrec _ _ _ _ E1) by done.
      destruct r as [[|x l]|[|x l]]; try exact H; by apply IH.
    + injection H as <- _. done.
  - by apply IH.
Qed.

Lemma get_module_recursive_S (env : Env) (fuel : nat) (module : InstallModule)
    (depth : Z) :
  get_module_recursive env (S fuel) module depth =
  (module_file <- download_module env module ;;
   match module_file with
   | None => ret (no_files depth)
   | Some module_file =>
       deps <- lift (get_dependencies env module_file) ;;
       module_files <- deps_loop (get_module_recursive env fuel) depth deps
                         [(module_file, depth)] ;;
       if Z.ltb depth 0 then ret (Tagged module_files)
       else ret (Paths (clean_duplicated_files
                          (map fst (sort_by_depth module_files))))
   end).
Proof. reflexivity. Qed.

Lemma get_module_recursive_fuel_S (env : Env) (fuel : nat) :
  forall (module : InstallModule) (depth : Z) (s : State) o (s' : State),
    get_module_recursive env fuel module depth s = (o, s') -> o <> Timeout ->
    get_module_recursive env (S fuel) module depth s = (o, s').
Proof.
  induction fuel as [|fuel IH]; intros module depth s o s' H Ho.
  - injection H as <- _. done.
  - rewrite get_module_recursive_S in H |- *. unfold bind in H |- *.
    destruct (download_module env module s) as [[[f|]| | |] s1]; try exact H.
    unfold lift in H |- *.
    destruct (get_dependencies env f) as [deps| | |]; try exact H.
    destruct (deps_loop (get_module_recursive env fuel) depth deps [(f, depth)] s1)
      as [o2 s2] eqn:E2.
    destruct o2 as [out| | |];
      try (rewrite (deps_loop_mono _ _ depth deps
                      (fun dep s0 o0 s0' => IH dep (depth - 1) s0 o0 s0')
                      _ _ _ _ E2) by done; exact H).
    injection H as <- _. done.
Qed.

Lemma get_module_recursive_fuel_le (env : Env) (fuel fuel' : nat)
    (module : InstallModule) (depth : Z) (s : State) o (s' : State) :
  (fuel <= fuel')%nat ->
  get_module_recursive env fuel module depth s = (o, s') -> o <> Timeout ->
  get_module_recursive env fuel' module depth s = (o, s').
Proof.
  intros Hle H Ho. induction Hle as [|fuel' _ IH]; [done|].
  by apply get_module_recursive_fuel_S.
Qed.

Lemma get_module_recursive_tagged (env : Env) (fuel : nat) :
  forall (module : InstallModule) (depth : Z) (s : State) (r : files) (s' : State),
    get_module_recursive env fuel module depth s = (Ok r, s') ->
    (exists s1, download_module env module s = (Ok None, s1) /\ r = no_files depth)
    \/ (exists f s1 rest,
          download_module env module s = (Ok (Some f), s1)
          /\ (forall p d, (p, d) ∈ rest -> d < depth)
          /\ r = returned depth ((f, depth) :: rest)).
Proof.
  induction fuel as [|fuel IH]; intros module depth s r s' H; [done|].
  rewrite get_module_recursive_S in H. unfold bind in H.
  destruct (download_module env module s) as [[[f|]| | |] s1]; try done.
  - right. unfold lift in H.
    destruct (get_dependencies env f) as [deps| | |]; try done.
    destruct (deps_loop (get_module_recursive env fuel) depth deps [(f, depth)] s1)
      as [[out| | |] s2] eqn:E2; try done.
    assert (Hrec : forall dep s0 l0 s0',
              get_module_recursive env fuel dep (depth - 1) s0 = (Ok (Tagged l0), s0') ->
              forall p0 d0, (p0, d0) ∈ l0 -> d0 < depth).
    { intros dep s0 l0 s0' Hr p0 d0 Hp0.
      destruct (IH dep (depth - 1) s0 _ s0' Hr)
        as [(s1' & _ & Hnf)|(f' & s1' & rest & _ & Hrest & Hret)].
      - unfold no_files in Hnf. destruct (Z.ltb (depth - 1) 0); [|done].
        injection Hnf as ->. by apply elem_of_nil in Hp0.
      - unfold returned in Hret. destruct (Z.ltb (depth - 1) 0); [|done].
        injection Hret as ->.
        apply elem_of_cons in Hp0 as [Hp0|Hp0].
        + injection Hp0 as _ ->. lia.
        + specialize (Hrest p0 d0 Hp0). lia. }
    destruct (deps_loop_more _ _ _ Hrec _ _ _ _ E2) as (more & -> & Hmore).
    exists f, s1, more. split; [done|]. split; [done|].
    unfold returned, install_order. cbn [app].
    destruct (Z.ltb depth 0); by injection H as <- _.
  - left. exists s1. split; [done|]. unfold ret in H. by injection H as <- _.
Qed.

Lemma insert_depth_last (x : string * Z) (l : list (string * Z)) :
  (forall y, y ∈ l -> snd y < snd x) -> insert_depth x l = l ++ [x].
Proof.
  induction l as [|y l IH]; intros H; [done|]. cbn [insert_depth app].
  assert (Hy : snd y < snd x) by (apply H; left).
  apply Z.ltb_lt in Hy. rewrite Hy. f_equal. apply IH. intros z Hz. apply H. by right.
Qed.

Lemma install_order_own_last (f : string) (depth : Z) (rest : list (string * Z)) :
  (forall p d, (p, d) ∈ rest -> d < depth) ->
  install_order ((f, depth) :: rest) =
  install_order rest ++ (if decide (f ∈ install_order rest) then [] else [f]).
Proof.
  intros Hrest. unfold install_order, clean_duplicated_files. cbn [sort_by_depth].
  rewrite insert_depth_last.
  - rewrite map_app, clean_loop_app. f_equal. cbn [map fst].
    rewrite clean_loop_cons.
    destruct (decide (f ∈ list_to_set (map fst (sort_by_depth rest)) ∪ (∅ : gset string)))
      as [Hin|Hin];
      destruct (decide (f ∈ clean_loop (map fst (sort_by_depth rest)) ∅ []))
      as [Hin'|Hin']; cbn [clean_loop]; try done.
    + exfalso. apply Hin'. apply elem_of_clean_loop.
      apply elem_of_union in Hin as [Hin|Hin]; [|by apply elem_of_empty in Hin].
      apply elem_of_list_to_set in Hin. split; [done | apply not_elem_of_empty].
    + exfalso. apply Hin. apply elem_of_clean_loop in Hin' as [Hin' _].
      apply elem_of_union. left. by apply elem_of_list_to_set.
  - intros [p d] Hy. rewrite elem_of_sort_by_depth in Hy. cbn [snd].
    by apply (Hrest p).
Qed.

(** X20. A call of [get_module_recursive] that returns does so whatever
    the bound on the recursion above the one it needed. Its result is empty
    exactly when no archive was found for the module itself; otherwise the
    walked pairs start with the module's own archive at the call's depth
    and every other pair is deeper, and at the top level the returned list
    has no duplicate and ends with the module's own archive, unless that
    archive stands among those of its dependencies. *)
Theorem get_module_recursive_result :
  forall (env : Env) (fuel : nat) (module : InstallModule) (depth : Z)
         (s : State) (r : files) (s' : State),
    get_module_recursive env fuel module depth s = (Ok r, s') ->
    (forall fuel', (fuel <= fuel')%nat ->
       get_module_recursive env fuel' module depth s = (Ok r, s'))
    /\ ((exists s1, download_module env module s = (Ok None, s1) /\ r = no_files depth)
        \/ (exists f s1 rest,
              download_module env module s = (Ok (Some f), s1)
              /\ (forall p d, (p, d) ∈ rest -> d < depth)
              /\ r = returned depth ((f, depth) :: rest)
              /\ NoDup (install_order ((f, depth) :: rest))
              /\ install_order ((f, depth) :: rest) =
                 install_order rest
                 ++ (if decide (f ∈ install_order rest) then [] else [f]))).
Proof.
  intros env fuel module depth s r s' H. split.
  - intros fuel' Hle. by apply (get_module_recursive_fuel_le env fuel fuel').
  - destruct (get_module_recursive_tagged env fuel module depth s r s' H)
      as [Hnone|(f & s1 & rest & Hd & Hrest & Hr)]; [by left|].
    right. exists f, s1, rest. split; [done|]. split; [done|]. split; [done|].
    split; [apply NoDup_clean_loop | by apply install_order_own_last].
Qed.

Lemma get_module_recursive_result_witness :
  exists l,
    fst (get_module_recursive Examples.diamond_env 5 Examples.app_request 0 empty_state)
    = Ok (Paths (l ++ ["/cache/app-1.0.tar.gz"]))
    /\ NoDup (l ++ ["/cache/app-1.0.tar.gz"]).
Proof.
  destruct (get_module_recursive Examples.diamond_env 5 Examples.app_request 0
              empty_state) as [o s'] eqn:E.
  assert (Ho : o = Ok (Paths [ "/cache/libb-1.0.tar.gz"; "/cache/liba-1.0.tar.gz";
                               "/cache/app-1.0.tar.gz" ])).
  { pose proof E as E'. vm_compute in E'. by injection E' as <- _. }
  subst o.
  destruct (get_module_recursive_result _ _ _ _ _ _ _ E) as [_ Hform].
  exists [ "/cache/libb-1.0.tar.gz"; "/cache/liba-1.0.tar.gz" ].
  split; [done|].
  destruct Hform as [(s1 & _ & Hr)|(f & s1 & rest & _ & _ & Hr & Hnd & _)].
  - discriminate Hr.
  - unfold returned in Hr. cbn in Hr. injection Hr as Hr. cbn [app]. by rewrite Hr.
Defined.
